(** * Git remote resolution core of the "open Git repo on web" command

    A shallow embedding of [plugin/sublime_text/OpenGitRepoOnWebCommand.py]:
    the class [Git] with its process runner [run], the resolver
    [get_remote_web_url], the directory walk [is_in_git_repo] and the pure
    normalizer [get_url_from_remote_uri], followed by the properties of the
    specification checked against them.

    Conventions of the embedding.
    - A Python [str] is a [string]; its characters are the code points below
      256.  On that alphabet the only characters that match an ASCII letter of
      a pattern under [re.IGNORECASE] are the letter and its other case.
    - [os.path] is [posixpath].
    - The file system and the operating system are oracles passed explicitly:
      [FileSystem] answers [realpath], [isdir] and [isfile]; [OS] answers what a
      spawned process does, given everything spawned before it. *)

From stdpp Require Import base gmap strings list pretty.
From Stdlib Require Import Ascii ZArith Lia.

(** ** Python string primitives *)

Module PyStr.

(** Truthiness of a [str]: the empty string is falsy. *)
Definition truthy (s : string) : bool :=
  match s with EmptyString => false | String _ _ => true end.

Definition ascii_code (c : ascii) : nat := nat_of_ascii c.

(** [c.lower()] on the letters A-Z. *)
Definition lower (c : ascii) : ascii :=
  let n := ascii_code c in
  if (65 <=? n)%nat && (n <=? 90)%nat then ascii_of_nat (n + 32) else c.

(** Character comparison of the regex engine, with or without
    [re.IGNORECASE]. *)
Definition chr_eq (ignorecase : bool) (p c : ascii) : bool :=
  if ignorecase then Ascii.eqb (lower p) (lower c) else Ascii.eqb p c.

(** [s[n:]] *)
Fixpoint drop (n : nat) (s : string) : string :=
  match n, s with
  | O, _ => s
  | S _, EmptyString => EmptyString
  | S k, String _ r => drop k r
  end.

(** [s[:n]] *)
Fixpoint take (n : nat) (s : string) : string :=
  match n, s with
  | O, _ => EmptyString
  | S _, EmptyString => EmptyString
  | S k, String c r => String c (take k r)
  end.

(** [s.startswith(p)] *)
Fixpoint startswith (p s : string) : bool :=
  match p, s with
  | EmptyString, _ => true
  | String _ _, EmptyString => false
  | String a p', String b s' => Ascii.eqb a b && startswith p' s'
  end.

(** [s.endswith(suffix)]: some tail of [s] is [suffix]. *)
Fixpoint endswith (suffix s : string) : bool :=
  String.eqb s suffix
  || match s with
     | EmptyString => false
     | String _ r => endswith suffix r
     end.

(** Adds a character in front of the first piece of a split. *)
Definition cons_first (c : ascii) (l : list string) : list string :=
  match l with
  | [] => [String c EmptyString]
  | h :: t => String c h :: t
  end.

(** [s.split(sep, maxsplit)] for a one-character separator; [None] is the
    default [maxsplit=-1]. *)
Fixpoint split (sep : ascii) (maxsplit : option nat) (s : string) : list string :=
  match maxsplit with
  | Some O => [s]
  | _ =>
      match s with
      | EmptyString => [EmptyString]
      | String c r =>
          if Ascii.eqb c sep
          then EmptyString :: split sep (Nat.pred <$> maxsplit) r
          else cons_first c (split sep maxsplit r)
      end
  end.

(** [sep.join(l)] *)
Definition join (sep : string) (l : list string) : string := String.concat sep l.

(** [l[:-1]] and [l[-1]]; the latter raises [IndexError] on an empty list,
    hence the [option]. *)
Definition all_but_last (l : list string) : list string := removelast l.
Definition last_item (l : list string) : option string := last l.

(** [str.isspace] for one character: TAB..CR, FS..US, space, NEL, NBSP. *)
Definition isspace (c : ascii) : bool :=
  let n := ascii_code c in
  ((9 <=? n)%nat && (n <=? 13)%nat) || ((28 <=? n)%nat && (n <=? 32)%nat)
  || (n =? 133)%nat || (n =? 160)%nat.

(** [s.rstrip()] (with [strip := isspace]) and [s.rstrip(chars)]: drops the
    longest tail of characters satisfying [strip]. *)
Fixpoint rstrip_by (strip : ascii -> bool) (s : string) : string :=
  match s with
  | EmptyString => EmptyString
  | String c r =>
      match rstrip_by strip r with
      | EmptyString => if strip c then EmptyString else String c EmptyString
      | r' => String c r'
      end
  end.

Definition rstrip (s : string) : string := rstrip_by isspace s.

(** [s.rfind(c)] for a one-character [c]: the highest index, or [-1]. *)
Fixpoint rfind (c : ascii) (s : string) : Z :=
  match s with
  | EmptyString => (-1)%Z
  | String a r =>
      let k := rfind c r in
      if (0 <=? k)%Z then (k + 1)%Z
      else if Ascii.eqb a c then 0%Z else (-1)%Z
  end.

(** [s == c * len(s)] *)
Fixpoint all_chr (c : ascii) (s : string) : bool :=
  match s with
  | EmptyString => true
  | String a r => Ascii.eqb a c && all_chr c r
  end.

(** [s.replace(old, new)] for a one-character [old]. *)
Fixpoint replace_chr (old : ascii) (new : string) (s : string) : string :=
  match s with
  | EmptyString => EmptyString
  | String a r =>
      if Ascii.eqb a old then new +:+ replace_chr old new r
      else String a (replace_chr old new r)
  end.

End PyStr.

(** ** The fragment of [re] the module uses *)

Module Re.
Import PyStr.

(** Flag bits; [re.IGNORECASE] is 2. *)
Definition IGNORECASE : N := 2.

Definition ignorecase_set (flags : N) : bool := N.testbit flags 1.

(** Pattern items: a literal character, an optional literal ([c?]) and
    the end anchor [$]. *)
Inductive atom := Lit (c : ascii) | Opt (c : ascii) | Dollar.

(** A pattern: whether it begins with [^], then its items. *)
Record regex := Regex { anchored : bool; atoms : list atom }.

(** Without [re.MULTILINE], [$] matches at the end of the string and just
    before a newline that ends the string. *)
Definition at_end (s : string) : bool :=
  match s with
  | EmptyString => true
  | String c EmptyString => Ascii.eqb c "010"
  | _ => false
  end.

(** Tries the items at the start of [s]; the number of characters
    consumed when they match there. *)
Fixpoint match_here (ic : bool) (p : list atom) (s : string) : option nat :=
  match p with
  | [] => Some O
  | Lit c :: p' =>
      match s with
      | String a s' => if chr_eq ic c a then S <$> match_here ic p' s' else None
      | EmptyString => None
      end
  | Opt c :: p' =>
      let without := match_here ic p' s in
      match s with
      | String a s' =>
          if chr_eq ic c a
          then match match_here ic p' s' with
               | Some n => Some (S n)
               | None => without
               end
          else without
      | EmptyString => without
      end
  | Dollar :: p' => if at_end s then match_here ic p' s else None
  end.

(** Scans for the leftmost position where the items match. *)
Fixpoint search_from (ic : bool) (p : list atom) (s : string) : bool :=
  match match_here ic p s with
  | Some _ => true
  | None =>
      match s with
      | EmptyString => false
      | String _ s' => search_from ic p s'
      end
  end.

(** Truth value of [re.search(pattern, s, flags)]. *)
Definition search (r : regex) (s : string) (flags : N) : bool :=
  let ic := ignorecase_set flags in
  if anchored r then bool_decide (is_Some (match_here ic (atoms r) s))
  else search_from ic (atoms r) s.

(** The replacement budget of [re.sub]: [count = 0] replaces every match. *)
Definition budget (count : N) : option nat :=
  if (count =? 0)%N then None else Some (N.to_nat count).

Definition budget_left (left : option nat) : bool :=
  match left with Some O => false | _ => true end.

(** The scan of [re.sub]: [skip] characters of a match just replaced are
    still to be passed over; [bol] holds at the first position only.  The
    patterns of this module never match the empty string, and the scan
    takes a match of length zero for no match. *)
Fixpoint sub_scan (ic anch : bool) (p : list atom) (repl : string)
    (left : option nat) (skip : nat) (bol : bool) (s : string) : string :=
  match s with
  | EmptyString => EmptyString
  | String c s' =>
      match skip with
      | S k => sub_scan ic anch p repl left k false s'
      | O =>
          let attempt :=
            if budget_left left && (negb anch || bol)
            then match_here ic p s else None in
          match attempt with
          | Some (S k) =>
              repl +:+ sub_scan ic anch p repl (Nat.pred <$> left) k false s'
          | _ => String c (sub_scan ic anch p repl left O false s')
          end
      end
  end.

(** [re.sub(pattern, repl, string, count, flags)]: the fourth positional
    parameter is [count], the fifth is [flags]. *)
Definition sub (r : regex) (repl s : string) (count flags : N) : string :=
  sub_scan (ignorecase_set flags) (anchored r) (atoms r) repl
           (budget count) O true s.

Definition lits (s : string) : list atom := Lit <$> String.list_ascii_of_string s.

End Re.

(** ** [posixpath] *)

Module PosixPath.
Import PyStr.

Definition sep : ascii := "/".

Definition is_sep (c : ascii) : bool := Ascii.eqb c sep.

(** [os.path.dirname(p)]: everything up to the last separator, without
    the separators that end it unless it consists of separators only. *)
Definition dirname (p : string) : string :=
  let i := (rfind sep p + 1)%Z in
  let head := take (Z.to_nat i) p in
  if truthy head && negb (all_chr sep head)
  then rstrip_by is_sep head
  else head.

(** One round of the loop of [os.path.join]. *)
Definition join_step (path b : string) : string :=
  if startswith "/" b then b
  else if negb (truthy path) || endswith "/" path then path +:+ b
  else path +:+ "/" +:+ b.

(** [os.path.join(a, *p)] *)
Definition join (a : string) (p : list string) : string :=
  fold_left join_step p a.

End PosixPath.

(** ** [shlex.quote] *)

Module Shlex.
Import PyStr.

Definition between (lo hi n : nat) : bool := (lo <=? n)%nat && (n <=? hi)%nat.

(** The characters outside the class [[^\w@%+=:,./-]] (with [re.ASCII]). *)
Definition safe_chr (c : ascii) : bool :=
  let n := ascii_code c in
  between 97 122 n || between 65 90 n || between 48 57 n
  || Ascii.eqb c "_" || Ascii.eqb c "@" || Ascii.eqb c "%" || Ascii.eqb c "+"
  || Ascii.eqb c "=" || Ascii.eqb c ":" || Ascii.eqb c "," || Ascii.eqb c "."
  || Ascii.eqb c "/" || Ascii.eqb c "-".

Fixpoint find_unsafe (s : string) : bool :=
  match s with
  | EmptyString => false
  | String c r => negb (safe_chr c) || find_unsafe r
  end.

Definition squote : ascii := "'".
Definition dquote : ascii := "034".

(** The five characters that replace a single quote: a single quote
    closed, one inside double quotes, and a single quote opened again. *)
Definition escaped_squote : string :=
  String squote (String dquote (String squote (String dquote
    (String squote EmptyString)))).

Definition quote (s : string) : string :=
  if negb (truthy s) then String squote (String squote EmptyString)
  else if negb (find_unsafe s) then s
  else String squote (replace_chr squote escaped_squote s)
         +:+ String squote EmptyString.

End Shlex.

(** ** Exceptions, processes and the state of the world *)

(** The exceptions that can cross [Git]'s methods. *)
Inductive exn :=
| GitException (message : string)
| TimeoutExpired (cmd : list string) (timeout : Z)
| OSError (strerror : string).

(** One call of [subprocess.Popen] followed by [communicate]. *)
Record invocation := Invocation {
  inv_cmd : list string;
  inv_cwd : string;
  inv_encoding : string;
  inv_timeout : Z
}.

(** What the spawned process does. *)
Inductive proc_result :=
| Completed (out err : string) (returncode : Z)
| NotCompleted
| NotStarted (strerror : string).

(** The operating system: decides each invocation from those made so far. *)
Definition OS : Type := list invocation -> invocation -> proc_result.

(** The observable state is the list of invocations made, oldest first. *)
Definition world : Type := list invocation.

Inductive outcome (A : Type) :=
| Return (a : A)
| Raise (e : exn).
Arguments Return {A} a.
Arguments Raise {A} e.

(** A Python computation: from a world to an outcome and a world. *)
Definition Py (A : Type) : Type := world -> outcome A * world.

Definition py_ret {A} (a : A) : Py A := fun w => (Return a, w).

Definition py_bind {A B} (m : Py A) (k : A -> Py B) : Py B :=
  fun w =>
    match m w with
    | (Return a, w') => k a w'
    | (Raise e, w') => (Raise e, w')
    end.

Definition py_raise {A} (e : exn) : Py A := fun w => (Raise e, w).

(** [try: body except GitException: handler]; any other exception goes on. *)
Definition try_except_GitException {A} (body : Py A) (handler : Py A) : Py A :=
  fun w =>
    match body w with
    | (Raise (GitException _), w') => handler w'
    | r => r
    end.

Declare Scope py_scope.
Delimit Scope py_scope with py.
Notation "'let*' x ':=' m 'in' k" := (py_bind m (fun x => k))
  (at level 10, x name, m at level 100, k at level 200) : py_scope.

(** [Popen(...)] then [communicate(timeout=...)] then [poll()]. *)
Definition popen_communicate (os : OS) (inv : invocation)
  : Py (string * string * Z) :=
  fun w =>
    let w' := w ++ [inv] in
    match os w inv with
    | Completed out err returncode => (Return (out, err, returncode), w')
    | NotCompleted => (Raise (TimeoutExpired (inv_cmd inv) (inv_timeout inv)), w')
    | NotStarted strerror => (Raise (OSError strerror), w')
    end.

(** ** The class [Git] *)

Record Git := {
  repo_path : string;
  git_bin : string;
  encoding : string
}.

(** The default of the keyword argument [timeout_s]. *)
Definition default_timeout_s : Z := 3.

(** The message of the [GitException] raised by [run]. *)
Definition failure_message (cmd_str : string) (ret_code : Z) (err : string) : string :=
  "`" +:+ cmd_str +:+ "` returned code " +:+ pretty ret_code +:+ ": " +:+ err.

(** [Git.run] *)
Definition run (os : OS) (self : Git) (args : list string) (timeout_s : Z)
  : Py string :=
  let cmd_tuple := git_bin self :: args in
  (let* r := popen_communicate os
          {| inv_cmd := cmd_tuple; inv_cwd := repo_path self;
             inv_encoding := encoding self; inv_timeout := timeout_s |} in
   let '(out, err, ret_code) := r in
   if negb (ret_code =? 0)%Z then
     let cmd_str := PyStr.join " " (Shlex.quote <$> cmd_tuple) in
     py_raise (GitException (failure_message cmd_str ret_code err))
   else py_ret (PyStr.rstrip out))%py.

(** The patterns of the module. *)
Definition re_refs_remotes : Re.regex := Re.Regex true (Re.lits "refs/remotes/").
Definition re_dot_git : Re.regex := Re.Regex false (Re.lits ".git" ++ [Re.Dollar]).
Definition re_ssh : Re.regex := Re.Regex true (Re.lits "ssh://").
Definition re_http : Re.regex :=
  Re.Regex true (Re.lits "http" ++ [Re.Opt "s"] ++ Re.lits "://").
Definition re_git_at : Re.regex := Re.Regex false (Re.lits "git@").

(** The local function [strip_dot_git]: [re.IGNORECASE] is handed to
    [re.sub] as its fourth positional argument, which is [count]. *)
Definition strip_dot_git (url : string) : string :=
  Re.sub re_dot_git "" url Re.IGNORECASE 0.

(** [Git.get_url_from_remote_uri]: three independent [if] statements, each
    of which may overwrite [url]. *)
Definition get_url_from_remote_uri (uri : string) : option string :=
  let url : option string := None in
  let url := if Re.search re_ssh uri Re.IGNORECASE then None else url in
  let url := if Re.search re_http uri Re.IGNORECASE then Some uri else url in
  let url :=
    if Re.search re_git_at uri Re.IGNORECASE then
      let parts := PyStr.split ":" None (PyStr.drop 4 uri) in
      let host := PyStr.join ":" (PyStr.all_but_last parts) in
      (* [split] never returns an empty list, so [parts[-1]] exists *)
      let path := default EmptyString (PyStr.last_item parts) in
      Some ("https://" +:+ host +:+ "/" +:+ path)
    else url in
  match url with
  | Some u => if PyStr.truthy u then Some (strip_dot_git u) else None
  | None => None
  end.

(** Truthiness of an [Optional[str]]. *)
Definition opt_truthy (o : option string) : bool :=
  match o with Some s => PyStr.truthy s | None => false end.

(** The remote named by an upstream ref:
    [re.sub(r"^refs/remotes/", "", upstream).split("/", 2)[0]]. *)
Definition remote_of_upstream (upstream : string) : string :=
  default EmptyString
    (head (PyStr.split "/" (Some 2%nat) (Re.sub re_refs_remotes "" upstream 0 0))).

(** [Git.get_remote_web_url] *)
Definition get_remote_web_url (os : OS) (self : Git) (remote : option string)
  : Py (option string) :=
  try_except_GitException
    (let* remote :=
       (if negb (opt_truthy remote) then
          let* upstream :=
            run os self ["rev-parse"; "--symbolic-full-name"; "@{upstream}"]
                default_timeout_s in
          py_ret (remote_of_upstream upstream)
        else py_ret (default EmptyString remote)) in
     let* remote_uri :=
       run os self ["remote"; "get-url"; remote] default_timeout_s in
     py_ret (get_url_from_remote_uri remote_uri))%py
    (py_ret None).

(** ** The directory walk *)

Record FileSystem := {
  realpath : string -> string;
  isdir : string -> bool;
  isfile : string -> bool
}.

(** The test of the loop body: [path] holds a [.git] directory or file. *)
Definition has_dot_git (fs : FileSystem) (path : string) : bool :=
  let path_test := PosixPath.join path [".git"] in
  isdir fs path_test || isfile fs path_test.

(** The [while True] loop of [is_in_git_repo], at most [fuel] rounds;
    [None] when the rounds run out. *)
Fixpoint is_in_git_repo_loop (fs : FileSystem) (fuel : nat)
    (path : string) (visited : gset string) : option bool :=
  match fuel with
  | O => None
  | S fuel' =>
      if negb (PyStr.truthy path) || bool_decide (path ∈ visited) then Some false
      else
        let visited := {[path]} ∪ visited in
        if has_dot_git fs path then Some true
        else is_in_git_repo_loop fs fuel' (PosixPath.dirname path) visited
  end.

(** The path the loop starts from. *)
Definition walk_start (fs : FileSystem) (path : string) : string :=
  if PyStr.truthy path then realpath fs path else path.

(** [Git.is_in_git_repo] *)
Definition is_in_git_repo (fs : FileSystem) (fuel : nat) (path : string)
  : option bool :=
  is_in_git_repo_loop fs fuel (walk_start fs path) ∅.

(** Rounds that always suffice for [path]. *)
Definition rounds_for (fs : FileSystem) (path : string) : nat :=
  S (String.length (walk_start fs path)).

(** ** Vocabulary of the properties *)

Definition newline : ascii := "010".

(** [c] occurs in [s]. *)
Fixpoint chr_in (c : ascii) (s : string) : bool :=
  match s with
  | EmptyString => false
  | String a r => Ascii.eqb a c || chr_in c r
  end.

(** [.git] followed by one newline. *)
Definition dot_git_nl : string :=
  String "." (String "g" (String "i" (String "t" (String newline EmptyString)))).

(** [s] ends in [.git], or in [.git] and one newline: the two places where
    the pattern [\.git$] matches. *)
Definition dot_git_tail (s : string) : bool :=
  PyStr.endswith ".git" s || PyStr.endswith dot_git_nl s.

(** The scan of [strip_dot_git], from any position. *)
Definition strip_scan (left : option nat) (skip : nat) (s : string) : string :=
  Re.sub_scan false false (Re.atoms re_dot_git) "" left skip false s.

(** The URL the [git@] branch of [get_url_from_remote_uri] builds. *)
Definition scp_url (uri : string) : string :=
  let parts := PyStr.split ":" None (PyStr.drop 4 uri) in
  "https://" +:+ PyStr.join ":" (PyStr.all_but_last parts) +:+ "/"
    +:+ default EmptyString (PyStr.last_item parts).

(** [s] begins with [p], letter case aside. *)
Fixpoint begins_with_ci (p s : string) : bool :=
  match p, s with
  | EmptyString, _ => true
  | String _ _, EmptyString => false
  | String a p', String b s' =>
      Ascii.eqb (PyStr.lower a) (PyStr.lower b) && begins_with_ci p' s'
  end.

(** Normalizing the output of a normalization. *)
Definition normalize_twice (uri : string) : option string :=
  match get_url_from_remote_uri uri with
  | Some url => get_url_from_remote_uri url
  | None => None
  end.

(** The parent of [path], [k] times. *)
Definition ancestor (k : nat) (path : string) : string :=
  Nat.iter k PosixPath.dirname path.

(** The invocation [Git.run] makes for [args]. *)
Definition spawned (self : Git) (args : list string) (timeout_s : Z) : invocation :=
  {| inv_cmd := git_bin self :: args; inv_cwd := repo_path self;
     inv_encoding := encoding self; inv_timeout := timeout_s |}.

(** The two queries of [get_remote_web_url]. *)
Definition upstream_query (self : Git) : invocation :=
  spawned self ["rev-parse"; "--symbolic-full-name"; "@{upstream}"] default_timeout_s.

Definition get_url_query (self : Git) (remote : string) : invocation :=
  spawned self ["remote"; "get-url"; remote] default_timeout_s.

(** The last character of a string. *)
Fixpoint last_chr (s : string) : option ascii :=
  match s with
  | EmptyString => None
  | String c EmptyString => Some c
  | String _ r => last_chr r
  end.

(** Every character of [s] satisfies [f]. *)
Fixpoint all_chars (f : ascii -> bool) (s : string) : bool :=
  match s with
  | EmptyString => true
  | String c r => f c && all_chars f r
  end.

(** A process that ran to its end with exit code zero. *)
Definition exited_zero (r : proc_result) : bool :=
  match r with
  | Completed _ _ returncode => (returncode =? 0)%Z
  | _ => false
  end.

(** How the process [inv], spawned after [history], settles the result
    of [get_remote_web_url] when it is the last one spawned. *)
Definition settles (os : OS) (history : world) (inv : invocation)
    (r : outcome (option string)) : Prop :=
  match os history inv with
  | Completed _ _ ret_code =>
      if (ret_code =? 0)%Z then exists v, r = Return v else r = Return None
  | NotCompleted => r = Raise (TimeoutExpired (inv_cmd inv) (inv_timeout inv))
  | NotStarted strerror => r = Raise (OSError strerror)
  end.

(** A directory path in canonical form: the root, or a path that does not
    end in a separator. *)
Definition canonical_dir (d : string) : bool :=
  String.eqb d "/"
  || match last_chr d with
     | Some c => negb (PosixPath.is_sep c)
     | None => false
     end.

(** A file name: not empty and without a separator. *)
Definition file_name (s : string) : bool :=
  PyStr.truthy s && negb (chr_in PosixPath.sep s).

(** ** The rest of the module *)

(** *** Decimal numbers and the version pattern *)

Module PyInt.

(** [c.isdigit()] on the code points below 256: the digits 0 to 9. *)
Definition isdigit (c : ascii) : bool :=
  let n := PyStr.ascii_code c in (48 <=? n)%nat && (n <=? 57)%nat.

Definition digit_value (c : ascii) : N := N.of_nat (PyStr.ascii_code c - 48).

(** [int(s)] for a string of digits, most significant first. *)
Fixpoint int_from (acc : N) (s : string) : N :=
  match s with
  | EmptyString => acc
  | String c r => int_from (acc * 10 + digit_value c)%N r
  end.

Definition int (s : string) : N := int_from 0 s.

End PyInt.

Module ReGroups.

(** Pattern items: a literal character and the group [(\d+)]. *)
Inductive gatom := GLit (c : ascii) | GDigits.

(** The number of digits [s] begins with. *)
Fixpoint digit_run (s : string) : nat :=
  match s with
  | EmptyString => O
  | String c r => if PyInt.isdigit c then S (digit_run r) else O
  end.

(** Greedy repetition with backtracking: the longest length first, then
    each shorter one down to one. *)
Fixpoint first_success {A} (k : nat) (attempt : nat -> option A) : option A :=
  match k with
  | O => None
  | S k' =>
      match attempt k with
      | Some r => Some r
      | None => first_success k' attempt
      end
  end.

(** Tries the items at the start of [s]; the groups when they match. *)
Fixpoint match_here (p : list gatom) (s : string) : option (list string) :=
  match p with
  | [] => Some []
  | GLit c :: p' =>
      match s with
      | String a s' => if Ascii.eqb a c then match_here p' s' else None
      | EmptyString => None
      end
  | GDigits :: p' =>
      first_success (digit_run s)
        (fun k => cons (PyStr.take k s) <$> match_here p' (PyStr.drop k s))
  end.

(** [m.groups()] of [re.search(pattern, s)]: the leftmost match. *)
Fixpoint search (p : list gatom) (s : string) : option (list string) :=
  match match_here p s with
  | Some groups => Some groups
  | None =>
      match s with
      | EmptyString => None
      | String _ s' => search p s'
      end
  end.

End ReGroups.

(** The pattern [(\d+)\.(\d+)\.(\d+)]. *)
Definition re_version : list ReGroups.gatom :=
  [ReGroups.GDigits; ReGroups.GLit "."; ReGroups.GDigits; ReGroups.GLit ".";
   ReGroups.GDigits].

(** [tuple(map(lambda x: int(x), m.groups())) if m else None] *)
Definition version_of_output (out : string) : option (N * N * N) :=
  match ReGroups.search re_version out with
  | Some [a; b; c] => Some (PyInt.int a, PyInt.int b, PyInt.int c)
  | _ => None
  end.

(** [Git.get_version] *)
Definition get_version (os : OS) (self : Git) : Py (option (N * N * N)) :=
  try_except_GitException
    (let* out := run os self ["version"] default_timeout_s in
     py_ret (version_of_output out))%py
    (py_ret None).

(** *** The constructor *)

(** [shutil.which], answered by the host. *)
Definition Which : Type := string -> option string.

(** [a or b] for an optional string [a]. *)
Definition str_or (a : option string) (b : string) : string :=
  match a with
  | Some s => if PyStr.truthy s then s else b
  | None => b
  end.

(** [Git.__init__] *)
Definition Git_init (fs : FileSystem) (which : Which)
    (path git_bin_name encoding_name : string) : Git :=
  let path := if isfile fs path then PosixPath.dirname path else path in
  {| repo_path := path;
     git_bin := str_or (which git_bin_name) git_bin_name;
     encoding := encoding_name |}.

(** *** The host editor and the command *)

(** A view and its [file_name()], a window with its [active_view()] and
    its [folders()]. *)
Record View := { view_file_name : option string }.

Record Window := {
  active_view : option View;
  folders : list string
}.

(** What the command asks of the host: [sublime.error_message(msg)] and
    [sublime.run_command("open_url", {"url": url})]. *)
Inductive ui_event :=
| ErrorMessage (msg : string)
| OpenUrl (url : string).

(** [create_git_object], for the window [sublime.active_window()] gives. *)
Definition create_git_object (fs : FileSystem) (which : Which) (window : Window)
  : option Git :=
  let view := active_view window in
  let path := match view with
              | Some v => str_or (view_file_name v) EmptyString
              | None => EmptyString
              end in
  let path :=
    if negb (PyStr.truthy path) then
      default EmptyString
        (head (match folders window with [] => [EmptyString] | l => l end))
    else path in
  if negb (PyStr.truthy path) then None
  else Some (Git_init fs which path "git" "utf-8").

(** [OpenGitRepoOnWebCommand.is_enabled] *)
Definition is_enabled (fs : FileSystem) (which : Which) (window : Window)
    (fuel : nat) : option bool :=
  match create_git_object fs which window with
  | None => Some false
  | Some git => is_in_git_repo fs fuel (repo_path git)
  end.

(** [OpenGitRepoOnWebCommand.run]: the host calls made, in order. *)
Definition command_run (fs : FileSystem) (which : Which) (os : OS)
    (window : Window) (remote : option string) : Py (list ui_event) :=
  match create_git_object fs which window with
  | None => py_ret []
  | Some git =>
      (let* repo_url := get_remote_web_url os git remote in
       if negb (opt_truthy repo_url)
       then py_ret [ErrorMessage "Can't determine repo web URL..."]
       else py_ret [OpenUrl (default EmptyString repo_url)])%py
  end.

(** *** Vocabulary of the further properties *)

(** One of the two queries the resolver makes, in the directory and with
    the settings of the handle. *)
Definition resolver_query (self : Git) (inv : invocation) : Prop :=
  inv = upstream_query self \/ exists remote, inv = get_url_query self remote.

(** White space only. *)
Definition all_space (s : string) : bool := all_chars PyStr.isspace s.

(** Digits only, and at least one. *)
Definition is_number (s : string) : bool :=
  PyStr.truthy s && all_chars PyInt.isdigit s.

(** No digit at all. *)
Definition digit_free (s : string) : bool :=
  all_chars (fun c => negb (PyInt.isdigit c)) s.

(** Does not begin with a digit. *)
Definition no_leading_digit (s : string) : bool :=
  match s with
  | EmptyString => true
  | String c _ => negb (PyInt.isdigit c)
  end.

(** A window showing the file [f]. *)
Definition window_on_file (f : string) (dirs : list string) : Window :=
  {| active_view := Some {| view_file_name := Some f |}; folders := dirs |}.

(** A file system with the repository [/repo] and the file
    [/repo/src/a.py] in it. *)
Definition source_fs : FileSystem :=
  {| realpath := fun p => p;
     isdir := fun p => String.eqb p "/repo/.git";
     isfile := fun p => String.eqb p "/repo/src/a.py" |}.

(** A search path without [git], and one with it. *)
Definition no_git_on_path : Which := fun _ => None.
Definition git_on_path : Which := fun _ => Some "/usr/bin/git".

(** ** Sample environments *)

Definition sample_git : Git :=
  {| repo_path := "/repo"; git_bin := "git"; encoding := "utf-8" |}.

(** A repository that tracks [origin/main]; [origin] is an HTTPS remote. *)
Definition tracking_os : OS := fun _ inv =>
  match inv_cmd inv with
  | [_; "rev-parse"; "--symbolic-full-name"; "@{upstream}"] =>
      Completed (String.append "refs/remotes/origin/main" (String newline EmptyString))
                "" 0
  | [_; "remote"; "get-url"; "origin"] =>
      Completed (String.append "https://github.com/acme/widgets.git"
                               (String newline EmptyString)) "" 0
  | _ => Completed "" "fatal: no such remote" 2
  end.

(** A repository without an upstream: every command exits with 128. *)
Definition failing_os : OS := fun _ _ => Completed "" "fatal: no upstream" 128.

(** A [git] that never answers in time. *)
Definition hanging_os : OS := fun _ _ => NotCompleted.

(** No [git] to start. *)
Definition missing_git_os : OS := fun _ _ => NotStarted "No such file or directory".

(** A file system where only [/repo] holds a [.git] directory. *)
Definition repo_fs : FileSystem :=
  {| realpath := fun p => p;
     isdir := fun p => String.eqb p "/repo/.git";
     isfile := fun _ => false |}.

(** A file system without any [.git]. *)
Definition bare_fs : FileSystem :=
  {| realpath := fun p => p; isdir := fun _ => false; isfile := fun _ => false |}.

(** * Properties *)

#[local] Arguments String.append !_ _ : simpl nomatch.
#[local] Arguments Ascii.eqb : simpl never.
#[local] Arguments PyStr.chr_eq : simpl never.
#[local] Arguments PyStr.lower : simpl never.


(** ** Strings *)

Section StringFacts.
Import PyStr.

Lemma append_nil_r (s : string) : s +:+ "" = s.
Proof. induction s as [|c s IH]; simpl; [reflexivity | now rewrite IH]. Qed.

Lemma append_assoc (a b c : string) : (a +:+ b) +:+ c = a +:+ (b +:+ c).
Proof. induction a as [|x a IH]; simpl; [reflexivity | now rewrite IH]. Qed.

Lemma append_length (a b : string) :
  String.length (a +:+ b) = String.length a + String.length b.
Proof. induction a as [|x a IH]; simpl; [reflexivity | now rewrite IH]. Qed.

Lemma split_not_nil sep m s : split sep m s <> [].
Proof.
  revert m. induction s as [|c s IH]; intros [[|n]|]; simpl; try discriminate.
  - destruct (Ascii.eqb c sep); [discriminate|].
    specialize (IH (Some (S n))). destruct (split sep (Some (S n)) s); [contradiction | discriminate].
  - destruct (Ascii.eqb c sep); [discriminate|].
    specialize (IH None). destruct (split sep None s); [contradiction | discriminate].
Qed.

Lemma cons_first_app c l l' : l <> [] -> cons_first c (l ++ l') = cons_first c l ++ l'.
Proof. destruct l; [contradiction | reflexivity]. Qed.

(** Splitting distributes over a separator. *)
Lemma split_app_sep sep a b :
  split sep None (a +:+ String sep b) = split sep None a ++ split sep None b.
Proof.
  induction a as [|c a IH]; simpl.
  - now rewrite Ascii.eqb_refl.
  - destruct (Ascii.eqb c sep); simpl; rewrite IH; [reflexivity|].
    apply cons_first_app, split_not_nil.
Qed.

Lemma split_without_sep sep s : chr_in sep s = false -> split sep None s = [s].
Proof.
  induction s as [|c s IH]; simpl; [reflexivity|].
  intros H. apply orb_false_iff in H as [Hc Hs].
  rewrite Hc, (IH Hs). reflexivity.
Qed.

Lemma join_cons_first sep c l :
  l <> [] -> join sep (cons_first c l) = String c (join sep l).
Proof. destruct l as [|h [|h' t]]; [contradiction | reflexivity | reflexivity]. Qed.

(** Joining the pieces of a split gives the string back. *)
Lemma join_split sep s : join (String sep "") (split sep None s) = s.
Proof.
  induction s as [|c s IH]; simpl; [reflexivity|].
  destruct (Ascii.eqb_spec c sep) as [->|Hne].
  - pose proof (split_not_nil sep None s) as Hnil.
    unfold join in *. simpl.
    destruct (split sep None s) as [|h t]; [contradiction|].
    simpl in *. now rewrite IH.
  - rewrite join_cons_first by apply split_not_nil. now rewrite IH.
Qed.

Lemma all_but_last_snoc (l : list string) x : all_but_last (l ++ [x]) = l.
Proof. apply removelast_last. Qed.

Lemma last_item_snoc (l : list string) x : last_item (l ++ [x]) = Some x.
Proof. apply last_snoc. Qed.

(** The host and the path of [HOST:PATH], as the code takes them. *)
Lemma split_host_path host path :
  chr_in ":" path = false ->
  let parts := split ":" None (host +:+ ":" +:+ path) in
  join ":" (all_but_last parts) = host /\ last_item parts = Some path.
Proof.
  intros Hp parts. subst parts.
  change (host +:+ ":" +:+ path) with (host +:+ String ":" path).
  rewrite split_app_sep, (split_without_sep _ _ Hp).
  rewrite all_but_last_snoc, last_item_snoc. split; [apply join_split | reflexivity].
Qed.

Lemma split_first_piece sep n a b :
  chr_in sep a = false ->
  head (split sep (Some (S n)) (a +:+ String sep b)) = Some a.
Proof.
  induction a as [|c a IH]; simpl.
  - now rewrite Ascii.eqb_refl.
  - intros H. apply orb_false_iff in H as [Hc Ha]. rewrite Hc.
    specialize (IH Ha).
    destruct (split sep (Some (S n)) (a +:+ String sep b)); simpl in *; congruence.
Qed.

Lemma endswith_app suffix x : endswith suffix (x +:+ suffix) = true.
Proof.
  induction x as [|c x IH].
  - change ("" +:+ suffix) with suffix.
    destruct suffix; cbn [endswith]; now rewrite String.eqb_refl.
  - change (String c x +:+ suffix) with (String c (x +:+ suffix)).
    cbn [endswith]. rewrite IH. apply orb_true_r.
Qed.

Lemma endswith_inv suffix s :
  endswith suffix s = true -> exists x, s = x +:+ suffix.
Proof.
  induction s as [|c s IH]; cbn [endswith]; intros H.
  - rewrite orb_false_r in H. apply String.eqb_eq in H. exists "". now subst.
  - apply orb_true_iff in H as [H|H].
    + apply String.eqb_eq in H. exists "". now rewrite H.
    + destruct (IH H) as [x ->]. now exists (String c x).
Qed.

End StringFacts.

(** ** The pattern [\.git$] and [strip_dot_git] *)

Section StripDotGit.
Import PyStr Re.

Lemma sub_scan_unanchored_bol ic p repl left skip b s :
  sub_scan ic false p repl left skip b s = sub_scan ic false p repl left skip false s.
Proof. destruct s; [reflexivity|]. destruct skip; reflexivity. Qed.

Lemma strip_dot_git_scan s : strip_dot_git s = strip_scan (Some 2) 0 s.
Proof. unfold strip_dot_git, sub, strip_scan. apply sub_scan_unanchored_bol. Qed.

Lemma chr_eq_exact p c : chr_eq false p c = true <-> p = c.
Proof. unfold chr_eq. apply Ascii.eqb_eq. Qed.

(** Where [\.git$] matches. *)
Lemma match_dot_git_inv s n :
  match_here false (atoms re_dot_git) s = Some n ->
  n = 4 /\ (s = ".git" \/ s = dot_git_nl).
Proof.
  unfold dot_git_nl, newline.
  destruct s as [|c1 [|c2 [|c3 [|c4 [|c5 [|c6 s]]]]]];
    repeat (simpl;
            match goal with
            | |- context [chr_eq false ?a ?b] =>
                let E := fresh in
                destruct (chr_eq false a b) eqn:E;
                [apply chr_eq_exact in E; subst|]
            | |- context [Ascii.eqb ?a ?b] =>
                destruct (Ascii.eqb_spec a b); subst
            end);
    simpl; try discriminate; intros [= <-]; auto.
Qed.

Lemma scan_no_match left c r :
  match_here false (atoms re_dot_git) (String c r) = None ->
  strip_scan left 0 (String c r) = String c (strip_scan left 0 r).
Proof.
  intros H. unfold strip_scan. cbn [sub_scan]. rewrite H.
  destruct (budget_left left && (negb false || false)); reflexivity.
Qed.

Lemma no_match_inside c x suffix :
  (suffix = ".git" \/ suffix = dot_git_nl) ->
  match_here false (atoms re_dot_git) (String c (x +:+ suffix)) = None.
Proof.
  intros Hs.
  destruct (match_here _ _ _) as [n|] eqn:E; [|reflexivity].
  apply match_dot_git_inv in E as [_ E]. exfalso.
  destruct E as [E|E], Hs as [->| ->];
    try (apply (f_equal String.length) in E; simpl in E;
         rewrite append_length in E; simpl in E; lia).
  destruct x as [|c' x]; [discriminate|].
  apply (f_equal String.length) in E; simpl in E.
  rewrite append_length in E; simpl in E; lia.
Qed.

(** A final [.git] is removed. *)
Lemma strip_dot_git_suffix x : strip_dot_git (x +:+ ".git") = x.
Proof.
  rewrite strip_dot_git_scan. induction x as [|c x IH]; [reflexivity|].
  change (String c x +:+ ".git") with (String c (x +:+ ".git")).
  rewrite scan_no_match by (apply no_match_inside; auto). now rewrite IH.
Qed.

(** So is a [.git] that stands before a final newline. *)
Lemma strip_dot_git_before_newline x :
  strip_dot_git (x +:+ dot_git_nl) = x +:+ String newline "".
Proof.
  rewrite strip_dot_git_scan. induction x as [|c x IH]; [reflexivity|].
  change (String c x +:+ dot_git_nl) with (String c (x +:+ dot_git_nl)).
  rewrite scan_no_match by (apply no_match_inside; auto). now rewrite IH.
Qed.

(** Anything else is left as it is. *)
Lemma strip_dot_git_id s : dot_git_tail s = false -> strip_dot_git s = s.
Proof.
  rewrite strip_dot_git_scan. unfold dot_git_tail. fold dot_git_nl.
  induction s as [|c s IH]; [reflexivity|].
  cbn [endswith]. intros H.
  apply orb_false_iff in H as [H1 H2].
  apply orb_false_iff in H1 as [E1 T1]. apply orb_false_iff in H2 as [E2 T2].
  rewrite scan_no_match.
  - rewrite IH; [reflexivity|]. now rewrite T1, T2.
  - destruct (match_here _ _ _) as [n|] eqn:E; [|reflexivity].
    apply match_dot_git_inv in E as [_ [E| E]]; rewrite E in *.
    + now rewrite String.eqb_refl in E1.
    + now rewrite String.eqb_refl in E2.
Qed.

Lemma strip_dot_git_cons c r :
  c <> "."%char -> strip_dot_git (String c r) = String c (strip_dot_git r).
Proof.
  intros Hc. rewrite !strip_dot_git_scan. apply scan_no_match.
  simpl. destruct (chr_eq false "." c) eqn:E; [|reflexivity].
  apply chr_eq_exact in E. congruence.
Qed.

End StripDotGit.

(** ** URI normalization, branch by branch *)

Section Normalization.
Import PyStr Re.

(** The last [if] wins whenever [git@] occurs anywhere in the URI. *)
Lemma normalize_git_at uri :
  search re_git_at uri IGNORECASE = true ->
  get_url_from_remote_uri uri = Some (strip_dot_git (scp_url uri)).
Proof. intros H. unfold get_url_from_remote_uri. rewrite H. reflexivity. Qed.

Lemma normalize_http uri :
  search re_git_at uri IGNORECASE = false ->
  search re_http uri IGNORECASE = true ->
  get_url_from_remote_uri uri = Some (strip_dot_git uri).
Proof.
  intros Hg Hh. unfold get_url_from_remote_uri. rewrite Hg, Hh.
  destruct uri; [discriminate Hh | reflexivity].
Qed.

Lemma normalize_other uri :
  search re_git_at uri IGNORECASE = false ->
  search re_http uri IGNORECASE = false ->
  get_url_from_remote_uri uri = None.
Proof.
  intros Hg Hh. unfold get_url_from_remote_uri. rewrite Hg, Hh.
  now destruct (search re_ssh uri IGNORECASE).
Qed.

(** A URI accepted by [^https?://] begins with the four letters of
    [http], in either case. *)
Lemma http_match_inv uri :
  search re_http uri IGNORECASE = true ->
  exists c1 c2 c3 c4 r,
    uri = String c1 (String c2 (String c3 (String c4 r)))
    /\ chr_eq true "h" c1 = true /\ chr_eq true "t" c2 = true
    /\ chr_eq true "t" c3 = true /\ chr_eq true "p" c4 = true.
Proof.
  unfold search. change (anchored re_http) with true.
  change (ignorecase_set IGNORECASE) with true. cbv iota.
  intros H. apply bool_decide_eq_true in H as [n H].
  destruct uri as [|c1 [|c2 [|c3 [|c4 r]]]]; simpl in H;
    repeat match type of H with
           | context [chr_eq true ?a ?b] =>
               let E := fresh "E" in
               destruct (chr_eq true a b) eqn:E; simpl in H
           end;
    try discriminate H.
  exists c1, c2, c3, c4, r. auto.
Qed.

Lemma letter_not_dot p c :
  chr_eq true p "." = false -> chr_eq true p c = true -> c <> "."%char.
Proof. intros Hp Hc ->. congruence. Qed.

(** The pattern [git@] looks at four characters, none of which can belong
    to an appended [.git]. *)
Lemma git_at_here_app s :
  match_here true (atoms re_git_at) (s +:+ ".git")
  = match_here true (atoms re_git_at) s.
Proof.
  destruct s as [|c1 [|c2 [|c3 [|c4 r]]]]; simpl;
    repeat match goal with
           | |- context [chr_eq true ?a ?b] =>
               destruct (chr_eq true a b) eqn:?; simpl
           end;
    try reflexivity; try discriminate.
Qed.

Lemma git_at_search_app s :
  search re_git_at (s +:+ ".git") IGNORECASE = search re_git_at s IGNORECASE.
Proof.
  unfold search. change (anchored re_git_at) with false. cbv iota.
  induction s as [|c s IH]; [reflexivity|].
  change (String c s +:+ ".git") with (String c (s +:+ ".git")).
  cbn [search_from]. rewrite <- IH.
  change (String c (s +:+ ".git")) with (String c s +:+ ".git").
  now rewrite git_at_here_app.
Qed.

Lemma chr_in_app c a b : chr_in c (a +:+ b) = chr_in c a || chr_in c b.
Proof.
  induction a as [|x a IH]; simpl; [reflexivity|].
  now rewrite IH, orb_assoc.
Qed.

(** A tail without [/] of [x/p] is a tail of [p]. *)
Lemma endswith_after_slash suffix x p :
  chr_in "/" suffix = false ->
  endswith suffix (x +:+ String "/" p) = true -> endswith suffix p = true.
Proof.
  intros Hs H. apply endswith_inv in H as [y Hy].
  revert y Hy. induction x as [|c x IH]; intros [|d y] Hy; simpl in Hy.
  - subst suffix. simpl in Hs. discriminate.
  - injection Hy as _ ->. apply endswith_app.
  - subst suffix. simpl in Hs. rewrite chr_in_app in Hs. simpl in Hs.
    rewrite !orb_true_r in Hs. discriminate.
  - injection Hy as _ Hy. eapply IH, Hy.
Qed.

Lemma dot_git_tail_after_slash x p :
  dot_git_tail p = false -> dot_git_tail (x +:+ "/" +:+ p) = false.
Proof.
  unfold dot_git_tail. intros H.
  apply orb_false_iff in H as [H1 H2].
  apply orb_false_iff. split; apply not_true_is_false; intros H;
    apply endswith_after_slash in H; try reflexivity; congruence.
Qed.

End Normalization.

(** ** URI normalization: the claims *)

Section NormalizationClaims.
Import PyStr Re.

(** An [ssh://] URI in which [git@] does not occur yields no value. *)
Lemma ssh_without_git_at uri :
  search re_ssh uri IGNORECASE = true ->
  search re_git_at uri IGNORECASE = false ->
  get_url_from_remote_uri uri = None.
Proof.
  intros Hs Hg. unfold get_url_from_remote_uri. rewrite Hs, Hg.
  destruct (search re_http uri IGNORECASE) eqn:Hh; [|reflexivity].
  exfalso. revert Hs Hh. unfold search.
  change (anchored re_ssh) with true. change (anchored re_http) with true.
  change (ignorecase_set IGNORECASE) with true. cbv iota.
  destruct uri as [|c r]; [discriminate|]. simpl.
  destruct (chr_eq true "s" c) eqn:Es; [|discriminate].
  destruct (chr_eq true "h" c) eqn:Eh; [|discriminate].
  unfold chr_eq in Es, Eh. apply Ascii.eqb_eq in Es, Eh.
  rewrite <- Es in Eh. discriminate Eh.
Qed.

(** C2: an [ssh://] URI is meant to yield no value, yet the common form
    with the user [git@] comes back as an [https] URL: the [git@] test is
    a separate [if] that overwrites the decision taken for [ssh://]. *)
Theorem ssh_uri_with_git_at_yields_url :
  search re_ssh "ssh://git@github.com/org/repo.git" IGNORECASE = true
  /\ get_url_from_remote_uri "ssh://git@github.com/org/repo.git"
     = Some "https://///git@github.com/org/repo".
Proof. split; reflexivity. Qed.

(** C3: an [https://] URI that carries the user [git@] is not returned as
    it is: the [git@] branch cuts its first four characters off and
    rebuilds it around its first colon. *)
Theorem http_uri_with_git_at_rewritten :
  search re_http "https://git@github.com/org/repo.git" IGNORECASE = true
  /\ get_url_from_remote_uri "https://git@github.com/org/repo.git"
     = Some "https://s///git@github.com/org/repo".
Proof. split; reflexivity. Qed.

(** C4: an upper-case [.GIT] is left in place, because [re.IGNORECASE]
    reaches [re.sub] as [count]; given as [flags] it would remove it. *)
Theorem upper_case_dot_git_kept :
  get_url_from_remote_uri "https://github.com/org/repo.GIT"
  = Some "https://github.com/org/repo.GIT"
  /\ strip_dot_git "https://github.com/org/repo.GIT"
     = "https://github.com/org/repo.GIT"
  /\ sub re_dot_git "" "https://github.com/org/repo.GIT" 0 IGNORECASE
     = "https://github.com/org/repo".
Proof. repeat split; reflexivity. Qed.

(** C5: for [git@HOST:PATH], with [PATH] free of colons, the pieces
    of the remainder after the first four characters give [HOST] (all but
    the last, joined by colons) and [PATH] (the last); [git@HOST:PATH.git]
    is normalized to [https://HOST/PATH], and so is [git@HOST:PATH] when
    [PATH] has no [.git] tail of its own. *)
Theorem scp_uri_normalization (HOST PATH : string) :
  chr_in ":" PATH = false ->
  (let parts := split ":" None (drop 4 ("git@" +:+ HOST +:+ ":" +:+ PATH)) in
   join ":" (all_but_last parts) = HOST /\ last_item parts = Some PATH)
  /\ get_url_from_remote_uri ("git@" +:+ HOST +:+ ":" +:+ PATH +:+ ".git")
     = Some ("https://" +:+ HOST +:+ "/" +:+ PATH)
  /\ (dot_git_tail PATH = false ->
      get_url_from_remote_uri ("git@" +:+ HOST +:+ ":" +:+ PATH)
      = Some ("https://" +:+ HOST +:+ "/" +:+ PATH)).
Proof.
  intros Hp.
  assert (Hp' : chr_in ":" (PATH +:+ ".git") = false)
    by (rewrite chr_in_app, Hp; reflexivity).
  pose proof (split_host_path HOST PATH Hp) as [Hh Hl].
  pose proof (split_host_path HOST (PATH +:+ ".git") Hp') as [Hh' Hl'].
  split; [split; assumption|]. split.
  - rewrite normalize_git_at by reflexivity. unfold scp_url.
    change (drop 4 ("git@" +:+ HOST +:+ ":" +:+ PATH +:+ ".git"))
      with (HOST +:+ ":" +:+ PATH +:+ ".git").
    rewrite Hh', Hl'.
    change (default "" (Some (PATH +:+ ".git"))) with (PATH +:+ ".git"). f_equal.
    rewrite <- (append_assoc "/"), <- (append_assoc HOST), <- (append_assoc "https://").
    now rewrite strip_dot_git_suffix.
  - intros Ht. rewrite normalize_git_at by reflexivity. unfold scp_url.
    change (drop 4 ("git@" +:+ HOST +:+ ":" +:+ PATH))
      with (HOST +:+ ":" +:+ PATH).
    rewrite Hh, Hl. change (default "" (Some PATH)) with PATH. f_equal.
    apply strip_dot_git_id.
    rewrite <- (append_assoc "https://").
    now apply dot_git_tail_after_slash.
Qed.

Lemma scp_uri_normalization_witness :
  get_url_from_remote_uri "git@gitlab.com:team/proj.git"
  = Some "https://gitlab.com/team/proj"
  /\ get_url_from_remote_uri "git@gitlab.com:team/proj"
     = Some "https://gitlab.com/team/proj".
Proof.
  destruct (scp_uri_normalization "gitlab.com" "team/proj" eq_refl)
    as (_ & H1 & H2).
  split; [exact H1 | exact (H2 eq_refl)].
Defined.

(** C6, as stated, fails: [https://HOST/PATH.git] with [PATH] = [a.git]
    is normalized to [https://HOST/PATH], and normalizing that output
    again gives something else. *)
Lemma normalization_not_idempotent :
  get_url_from_remote_uri ("https://h/" +:+ "a.git" +:+ ".git")
  = Some ("https://h/" +:+ "a.git")
  /\ normalize_twice ("https://h/" +:+ "a.git" +:+ ".git")
     <> get_url_from_remote_uri ("https://h/" +:+ "a.git" +:+ ".git").
Proof. split; [reflexivity | discriminate]. Qed.

(** C6, amended: when [git@] does not occur in [https://HOST/PATH],
    [https://HOST/PATH.git] is normalized to exactly [https://HOST/PATH];
    when moreover [PATH] has no [.git] tail of its own,
    [https://HOST/PATH] is returned as it is and normalizing either URI
    twice gives what normalizing it once gives. *)
Theorem https_uri_normalization (HOST PATH : string) :
  let url := "https://" +:+ HOST +:+ "/" +:+ PATH in
  search re_git_at url IGNORECASE = false ->
  get_url_from_remote_uri (url +:+ ".git") = Some url
  /\ (dot_git_tail PATH = false ->
      get_url_from_remote_uri url = Some url
      /\ normalize_twice url = get_url_from_remote_uri url
      /\ normalize_twice (url +:+ ".git")
         = get_url_from_remote_uri (url +:+ ".git")).
Proof.
  intros url Hg.
  assert (H2 : get_url_from_remote_uri (url +:+ ".git") = Some url).
  { rewrite normalize_http.
    - now rewrite strip_dot_git_suffix.
    - now rewrite git_at_search_app.
    - reflexivity. }
  split; [exact H2|]. intros Ht.
  assert (H1 : get_url_from_remote_uri url = Some url).
  { rewrite normalize_http; [|assumption|reflexivity].
    f_equal. apply strip_dot_git_id. subst url.
    rewrite <- (append_assoc "https://").
    now apply dot_git_tail_after_slash. }
  unfold normalize_twice. rewrite H1, H2, H1. auto.
Qed.

Lemma https_uri_normalization_witness :
  get_url_from_remote_uri "https://github.com/acme/widgets.git"
  = Some "https://github.com/acme/widgets"
  /\ normalize_twice "https://github.com/acme/widgets.git"
     = get_url_from_remote_uri "https://github.com/acme/widgets.git".
Proof.
  destruct (https_uri_normalization "github.com" "acme/widgets" eq_refl)
    as (H1 & H2).
  destruct (H2 eq_refl) as (_ & _ & H3).
  split; [exact H1 | exact H3].
Defined.

(** C10: normalization yields no value, or a non-empty string that
    begins with [http] in some letter case. *)
Theorem normalized_url_begins_with_http (uri : string) :
  get_url_from_remote_uri uri = None
  \/ exists url, get_url_from_remote_uri uri = Some url
                 /\ url <> "" /\ begins_with_ci "http" url = true.
Proof.
  destruct (search re_git_at uri IGNORECASE) eqn:Hg.
  - right. rewrite (normalize_git_at _ Hg). eexists. split; [reflexivity|].
    unfold scp_url.
    set (rest := _ +:+ "/" +:+ _).
    change ("https://" +:+ rest)
      with (String "h" (String "t" (String "t" (String "p" ("s://" +:+ rest))))).
    rewrite !strip_dot_git_cons by discriminate.
    split; [discriminate | reflexivity].
  - destruct (search re_http uri IGNORECASE) eqn:Hh.
    + right. rewrite (normalize_http _ Hg Hh). eexists. split; [reflexivity|].
      apply http_match_inv in Hh as (c1 & c2 & c3 & c4 & r & -> & E1 & E2 & E3 & E4).
      rewrite !strip_dot_git_cons by (eapply letter_not_dot; [|eassumption]; reflexivity).
      split; [discriminate|].
      cbn [begins_with_ci]. unfold chr_eq in E1, E2, E3, E4.
      now rewrite E1, E2, E3, E4.
    + left. now apply normalize_other.
Qed.

End NormalizationClaims.

(** ** The process runner *)

Section ProcessRunner.
Import PyStr.
Variable os : OS.
Variable self : Git.

(** What [rstrip] removes is a tail of characters to strip, and what
    it leaves does not end in one. *)
Lemma rstrip_by_spec f s :
  exists tail,
    s = rstrip_by f s +:+ tail /\ all_chars f tail = true
    /\ forall c, last_chr (rstrip_by f s) = Some c -> f c = false.
Proof.
  induction s as [|a s (tail & Hs & Ht & Hl)]; [exists ""; repeat split; discriminate|].
  cbn [rstrip_by]. destruct (rstrip_by f s) as [|d r'] eqn:E.
  - destruct (f a) eqn:Fa.
    + exists (String a s). repeat split; [|discriminate].
      cbn [all_chars]. rewrite Fa. simpl in Hs. now rewrite Hs.
    + exists tail. repeat split; [now rewrite Hs at 1 | assumption|].
      intros c [= <-]. exact Fa.
  - exists tail. repeat split; [now rewrite Hs at 1 | assumption | exact Hl].
Qed.

(** [run] spawns one process and turns what it did into a value or an
    exception. *)
Lemma run_unfold args timeout_s w :
  run os self args timeout_s w
  = (match os w (spawned self args timeout_s) with
     | Completed out err ret_code =>
         if (ret_code =? 0)%Z then Return (rstrip out)
         else Raise (GitException
                (failure_message (join " " (Shlex.quote <$> git_bin self :: args))
                                 ret_code err))
     | NotCompleted => Raise (TimeoutExpired (git_bin self :: args) timeout_s)
     | NotStarted strerror => Raise (OSError strerror)
     end, w ++ [spawned self args timeout_s]).
Proof.
  unfold run, py_bind, popen_communicate. fold (spawned self args timeout_s).
  destruct (os w (spawned self args timeout_s)) as [out err rc| |e]; try reflexivity.
  cbn [inv_cmd inv_timeout spawned]. destruct (rc =? 0)%Z; reflexivity.
Qed.

(** C9: a process that exits with code zero makes [run] return its
    standard output without the white space that ends it; one that exits
    with another code makes [run] raise a [GitException] whose message holds
    the quoted words of the command joined by spaces, the exit code and the
    standard error. *)
Theorem run_completed args timeout_s w out err ret_code :
  os w (spawned self args timeout_s) = Completed out err ret_code ->
  (ret_code = 0%Z ->
   run os self args timeout_s w
   = (Return (rstrip out), w ++ [spawned self args timeout_s])
   /\ exists tail, out = rstrip out +:+ tail /\ all_chars isspace tail = true
                   /\ forall c, last_chr (rstrip out) = Some c -> isspace c = false)
  /\ (ret_code <> 0%Z ->
      run os self args timeout_s w
      = (Raise (GitException
           ("`" +:+ join " " (Shlex.quote <$> git_bin self :: args)
                +:+ "` returned code " +:+ pretty ret_code +:+ ": " +:+ err)),
         w ++ [spawned self args timeout_s])).
Proof.
  intros Hos. rewrite run_unfold, Hos. split.
  - intros ->. split; [reflexivity | apply rstrip_by_spec].
  - intros Hne. apply Z.eqb_neq in Hne. now rewrite Hne.
Qed.

End ProcessRunner.

Lemma run_completed_witness :
  run tracking_os sample_git ["remote"; "get-url"; "origin"] default_timeout_s []
  = (Return "https://github.com/acme/widgets.git",
     [spawned sample_git ["remote"; "get-url"; "origin"] default_timeout_s])
  /\ run failing_os sample_git ["remote"; "get-url"; "a b"] default_timeout_s []
     = (Raise (GitException
                 "`git remote get-url 'a b'` returned code 128: fatal: no upstream"),
        [spawned sample_git ["remote"; "get-url"; "a b"] default_timeout_s]).
Proof.
  split.
  - exact (proj1 (proj1 (run_completed tracking_os sample_git
             ["remote"; "get-url"; "origin"] default_timeout_s [] _ _ 0%Z eq_refl)
             eq_refl)).
  - refine (proj2 (run_completed failing_os sample_git
             ["remote"; "get-url"; "a b"] default_timeout_s [] _ _ 128%Z eq_refl) _).
    discriminate.
Defined.

(** ** The resolver *)

Section Resolver.
Import PyStr.
Variable os : OS.
Variable self : Git.

(** The second step, once the remote is known. *)
Lemma get_url_step remote w :
  try_except_GitException
    (let* remote_uri :=
       run os self ["remote"; "get-url"; remote] default_timeout_s in
     py_ret (get_url_from_remote_uri remote_uri))%py
    (py_ret None) w
  = (match os w (get_url_query self remote) with
     | Completed out err ret_code =>
         if (ret_code =? 0)%Z
         then Return (get_url_from_remote_uri (rstrip out))
         else Return None
     | NotCompleted =>
         Raise (TimeoutExpired (inv_cmd (get_url_query self remote)) default_timeout_s)
     | NotStarted strerror => Raise (OSError strerror)
     end, w ++ [get_url_query self remote]).
Proof.
  unfold try_except_GitException, py_bind. rewrite run_unfold.
  fold (get_url_query self remote).
  destruct (os w (get_url_query self remote)) as [out err rc| |e]; try reflexivity.
  destruct (rc =? 0)%Z; reflexivity.
Qed.

(** With a remote given, the second step is all there is. *)
Lemma get_remote_web_url_named remote w :
  opt_truthy remote = true ->
  get_remote_web_url os self remote w
  = (match os w (get_url_query self (default "" remote)) with
     | Completed out err ret_code =>
         if (ret_code =? 0)%Z
         then Return (get_url_from_remote_uri (rstrip out))
         else Return None
     | NotCompleted =>
         Raise (TimeoutExpired
                  (inv_cmd (get_url_query self (default "" remote))) default_timeout_s)
     | NotStarted strerror => Raise (OSError strerror)
     end, w ++ [get_url_query self (default "" remote)]).
Proof.
  intros Hr. unfold get_remote_web_url. rewrite Hr. cbn [negb].
  rewrite <- get_url_step. reflexivity.
Qed.

(** Without one, the upstream query comes first and decides whether
    there is a second step. *)
Lemma get_remote_web_url_upstream remote w :
  opt_truthy remote = false ->
  get_remote_web_url os self remote w
  = match os w (upstream_query self) with
    | Completed out err ret_code =>
        if (ret_code =? 0)%Z
        then
          let w1 := w ++ [upstream_query self] in
          let q := get_url_query self (remote_of_upstream (rstrip out)) in
          (match os w1 q with
           | Completed out' err' ret_code' =>
               if (ret_code' =? 0)%Z
               then Return (get_url_from_remote_uri (rstrip out'))
               else Return None
           | NotCompleted => Raise (TimeoutExpired (inv_cmd q) default_timeout_s)
           | NotStarted strerror => Raise (OSError strerror)
           end, w1 ++ [q])
        else (Return None, w ++ [upstream_query self])
    | NotCompleted =>
        (Raise (TimeoutExpired (inv_cmd (upstream_query self)) default_timeout_s),
         w ++ [upstream_query self])
    | NotStarted strerror => (Raise (OSError strerror), w ++ [upstream_query self])
    end.
Proof.
  intros Hr. unfold get_remote_web_url. rewrite Hr. cbn [negb].
  destruct (os w (upstream_query self)) as [out err rc| |e] eqn:E.
  - destruct (rc =? 0)%Z eqn:Hrc.
    + cbv zeta. rewrite <- get_url_step.
      unfold try_except_GitException, py_bind at 1 2.
      rewrite run_unfold. fold (upstream_query self). rewrite E, Hrc.
      reflexivity.
    + unfold try_except_GitException, py_bind at 1 2.
      rewrite run_unfold. fold (upstream_query self). now rewrite E, Hrc.
  - unfold try_except_GitException, py_bind at 1 2.
    rewrite run_unfold. fold (upstream_query self). now rewrite E.
  - unfold try_except_GitException, py_bind at 1 2.
    rewrite run_unfold. fold (upstream_query self). now rewrite E.
Qed.

(** After the first position an anchored pattern is not tried again. *)
Lemma anchored_scan_rest ic p repl left s :
  Re.sub_scan ic true p repl left 0 false s = s.
Proof.
  induction s as [|c s IH]; [reflexivity|].
  cbn [Re.sub_scan]. rewrite andb_false_r. now rewrite IH.
Qed.

Lemma sub_refs_remotes_prefix s :
  Re.sub re_refs_remotes "" ("refs/remotes/" +:+ s) 0 0 = s.
Proof.
  transitivity (Re.sub_scan false true (Re.atoms re_refs_remotes) "" None 0 false s);
    [reflexivity | apply anchored_scan_rest].
Qed.

(** The remote of [refs/remotes/R/B]. *)
Lemma remote_of_upstream_ref R B :
  chr_in "/" R = false ->
  remote_of_upstream ("refs/remotes/" +:+ R +:+ "/" +:+ B) = R.
Proof.
  intros HR. unfold remote_of_upstream. rewrite sub_refs_remotes_prefix.
  change (R +:+ "/" +:+ B) with (R +:+ String "/" B).
  now rewrite split_first_piece.
Qed.

(** The processes spawned are one query, or the upstream query ended
    with code zero and then one more; the last one settles the result. *)
Lemma get_remote_web_url_shape remote w :
  (exists q,
      (get_remote_web_url os self remote w).2 = w ++ [q]
      /\ settles os w q (get_remote_web_url os self remote w).1)
  \/ (exists q1 q2,
         (get_remote_web_url os self remote w).2 = w ++ [q1; q2]
         /\ exited_zero (os w q1) = true
         /\ settles os (w ++ [q1]) q2 (get_remote_web_url os self remote w).1).
Proof.
  unfold settles. destruct (opt_truthy remote) eqn:Hr.
  - left. rewrite (get_remote_web_url_named _ _ Hr).
    exists (get_url_query self (default "" remote)). split; [reflexivity|].
    cbn [fst]. destruct (os w _) as [out err rc| |e]; try reflexivity.
    destruct (rc =? 0)%Z; eauto.
  - rewrite (get_remote_web_url_upstream _ _ Hr).
    destruct (os w (upstream_query self)) as [out err rc| |e] eqn:E.
    + destruct (rc =? 0)%Z eqn:Hrc.
      * right. cbv zeta.
        exists (upstream_query self),
               (get_url_query self (remote_of_upstream (rstrip out))).
        rewrite E. cbn [exited_zero fst snd]. rewrite <- app_assoc.
        repeat split; [assumption|].
        destruct (os (w ++ [upstream_query self]) _) as [out' err' rc'| |e'];
          try reflexivity.
        destruct (rc' =? 0)%Z; eauto.
      * left. exists (upstream_query self). rewrite E, Hrc. split; reflexivity.
    + left. exists (upstream_query self). rewrite E. split; reflexivity.
    + left. exists (upstream_query self). rewrite E. split; reflexivity.
Qed.

(** The ways to find one process among those spawned. *)
Lemma spawned_position (w before after : world) inv new :
  w ++ new = w ++ before ++ inv :: after ->
  (forall q, new = [q] -> before = [] /\ inv = q /\ after = []) /\
  (forall q1 q2, new = [q1; q2] ->
     (before = [] /\ inv = q1 /\ after = [q2])
     \/ (before = [q1] /\ inv = q2 /\ after = [])).
Proof.
  intros H. apply app_inv_head in H. split.
  - intros q ->. destruct before as [|b before]; [now injection H as -> ->|].
    injection H as _ H. now destruct before.
  - intros q1 q2 ->. destruct before as [|b before].
    + left. now injection H as -> ->.
    + right. injection H as -> H. destruct before as [|b' before].
      * now injection H as -> ->.
      * injection H as _ H. now destruct before.
Qed.

(** C1, amended: [get_remote_web_url] never lets a [GitException] out;
    when a process it spawned exits with a non-zero code, the result is
    absent and nothing more is spawned; when a process it spawned does not
    complete in time, the [TimeoutExpired] of the runner reaches the caller. *)
Theorem only_git_exceptions_are_caught remote w :
  (forall message,
      (get_remote_web_url os self remote w).1 <> Raise (GitException message))
  /\ (forall before inv after out err ret_code,
         (get_remote_web_url os self remote w).2 = w ++ before ++ inv :: after ->
         os (w ++ before) inv = Completed out err ret_code -> ret_code <> 0%Z ->
         (get_remote_web_url os self remote w).1 = Return None /\ after = [])
  /\ (forall before inv after,
         (get_remote_web_url os self remote w).2 = w ++ before ++ inv :: after ->
         os (w ++ before) inv = NotCompleted ->
         (get_remote_web_url os self remote w).1
         = Raise (TimeoutExpired (inv_cmd inv) (inv_timeout inv))
         /\ after = []).
Proof.
  pose proof (get_remote_web_url_shape remote w) as Hshape.
  unfold settles in Hshape. split; [|split].
  - intros message Hm. rewrite Hm in Hshape.
    destruct Hshape as [(q & _ & H) | (q1 & q2 & _ & _ & H)];
      match type of H with
      | match ?o with _ => _ end =>
          destruct o as [? ? rc| |?]; [|discriminate..];
          destruct (rc =? 0)%Z; [destruct H|]; discriminate
      end.
  - intros before inv after out err rc Hw' Hos Hne. apply Z.eqb_neq in Hne.
    destruct Hshape as [(q & Hw & H) | (q1 & q2 & Hw & Hz & H)];
      rewrite Hw in Hw'; apply spawned_position in Hw' as [P1 P2].
    + destruct (P1 q eq_refl) as (-> & -> & ->). rewrite app_nil_r in Hos.
      rewrite Hos, Hne in H. now split.
    + destruct (P2 q1 q2 eq_refl) as [(-> & -> & _) | (-> & -> & ->)].
      * rewrite app_nil_r in Hos. rewrite Hos in Hz. cbn [exited_zero] in Hz.
        congruence.
      * rewrite Hos, Hne in H. now split.
  - intros before inv after Hw' Hos.
    destruct Hshape as [(q & Hw & H) | (q1 & q2 & Hw & Hz & H)];
      rewrite Hw in Hw'; apply spawned_position in Hw' as [P1 P2].
    + destruct (P1 q eq_refl) as (-> & -> & ->). rewrite app_nil_r in Hos.
      rewrite Hos in H. now split.
    + destruct (P2 q1 q2 eq_refl) as [(-> & -> & _) | (-> & -> & ->)].
      * rewrite app_nil_r in Hos. rewrite Hos in Hz. discriminate Hz.
      * rewrite Hos in H. now split.
Qed.

(** C7, amended: without a remote name, (1) an upstream query that exits
    with a non-zero code ends the resolution with an absent result; (2) one
    that does not complete in time makes the resolution raise
    [TimeoutExpired], and (3) one that cannot be started makes it raise the
    start error; (4) whenever the upstream query does anything but exit with
    code zero, it is the only process spawned, so no remote name is made up;
    (5) when it prints [refs/remotes/R/B], with [R] free of [/], the second
    and last process spawned is [remote get-url R]. *)
Theorem upstream_names_the_remote remote w :
  opt_truthy remote = false ->
  (forall out err ret_code,
      os w (upstream_query self) = Completed out err ret_code ->
      ret_code <> 0%Z ->
      get_remote_web_url os self remote w
      = (Return None, w ++ [upstream_query self]))
  /\ (os w (upstream_query self) = NotCompleted ->
      get_remote_web_url os self remote w
      = (Raise (TimeoutExpired (inv_cmd (upstream_query self)) default_timeout_s),
         w ++ [upstream_query self]))
  /\ (forall strerror,
         os w (upstream_query self) = NotStarted strerror ->
         get_remote_web_url os self remote w
         = (Raise (OSError strerror), w ++ [upstream_query self]))
  /\ (exited_zero (os w (upstream_query self)) = false ->
      (get_remote_web_url os self remote w).2 = w ++ [upstream_query self])
  /\ (forall out err R B,
         os w (upstream_query self) = Completed out err 0 ->
         rstrip out = "refs/remotes/" +:+ R +:+ "/" +:+ B ->
         chr_in "/" R = false ->
         (get_remote_web_url os self remote w).2
         = w ++ [upstream_query self; get_url_query self R]).
Proof.
  intros Hr. rewrite (get_remote_web_url_upstream _ _ Hr). split_and!.
  - intros out err rc -> Hne. apply Z.eqb_neq in Hne. now rewrite Hne.
  - now intros ->.
  - now intros strerror ->.
  - destruct (os w (upstream_query self)) as [out err rc| |e]; try reflexivity.
    cbn [exited_zero]. now intros ->.
  - intros out err R B -> Hout HR. cbn [Z.eqb]. cbv zeta. cbn [snd].
    rewrite Hout, (remote_of_upstream_ref _ _ HR).
    now rewrite <- app_assoc.
Qed.

End Resolver.

(** C1, as stated, fails: a process that does not complete in time makes
    [get_remote_web_url] raise [TimeoutExpired] instead of returning. *)
Lemma timeout_escapes_get_remote_web_url :
  get_remote_web_url hanging_os sample_git (Some "origin") []
  = (Raise (TimeoutExpired ["git"; "remote"; "get-url"; "origin"] 3),
     [get_url_query sample_git "origin"]).
Proof. reflexivity. Qed.

Lemma only_git_exceptions_are_caught_witness :
  (get_remote_web_url failing_os sample_git None []).1 = Return None
  /\ (get_remote_web_url hanging_os sample_git None []).1
     = Raise (TimeoutExpired
                ["git"; "rev-parse"; "--symbolic-full-name"; "@{upstream}"] 3).
Proof.
  split.
  - refine (proj1 (proj1 (proj2
              (only_git_exceptions_are_caught failing_os sample_git None []))
              [] (upstream_query sample_git) [] "" "fatal: no upstream" 128%Z
              eq_refl eq_refl _)).
    discriminate.
  - exact (proj1 (proj2 (proj2
             (only_git_exceptions_are_caught hanging_os sample_git None []))
             [] (upstream_query sample_git) [] eq_refl eq_refl)).
Defined.

(** C7, as stated, fails: an upstream query that does not complete in
    time is a failed query, and the resolution raises instead of returning
    an absent result. *)
Lemma upstream_timeout_is_raised :
  get_remote_web_url hanging_os sample_git None []
  = (Raise (TimeoutExpired
              ["git"; "rev-parse"; "--symbolic-full-name"; "@{upstream}"] 3),
     [upstream_query sample_git]).
Proof. reflexivity. Qed.

Lemma upstream_names_the_remote_witness :
  get_remote_web_url failing_os sample_git None []
  = (Return None, [upstream_query sample_git])
  /\ (get_remote_web_url hanging_os sample_git None []).1
     = Raise (TimeoutExpired
                ["git"; "rev-parse"; "--symbolic-full-name"; "@{upstream}"] 3)
  /\ (get_remote_web_url missing_git_os sample_git None []).1
     = Raise (OSError "No such file or directory")
  /\ (get_remote_web_url hanging_os sample_git None []).2 = [upstream_query sample_git]
  /\ (get_remote_web_url tracking_os sample_git None []).2
     = [upstream_query sample_git; get_url_query sample_git "origin"].
Proof.
  split_and!.
  - refine (proj1 (upstream_names_the_remote failing_os sample_git None [] eq_refl)
              "" "fatal: no upstream" 128%Z eq_refl _).
    discriminate.
  - exact (f_equal fst
             (proj1 (proj2 (upstream_names_the_remote hanging_os sample_git None []
                              eq_refl)) eq_refl)).
  - exact (f_equal fst
             (proj1 (proj2 (proj2 (upstream_names_the_remote missing_git_os sample_git
                                     None [] eq_refl)))
                "No such file or directory" eq_refl)).
  - exact (proj1 (proj2 (proj2 (proj2
             (upstream_names_the_remote hanging_os sample_git None [] eq_refl))))
             eq_refl).
  - exact (proj2 (proj2 (proj2 (proj2
             (upstream_names_the_remote tracking_os sample_git None [] eq_refl))))
             _ "" "origin" "main" eq_refl eq_refl eq_refl).
Defined.

(** ** Parent directories *)

Section Dirname.
Import PyStr PosixPath.

Lemma take_length n s : String.length (take n s) <= String.length s.
Proof.
  revert n. induction s as [|c s IH]; intros [|n]; simpl; try lia.
  specialize (IH n). lia.
Qed.

Lemma take_full n s : String.length (take n s) = String.length s -> take n s = s.
Proof.
  revert n. induction s as [|c s IH]; intros [|n]; simpl; try reflexivity; try discriminate.
  intros [= H]. now rewrite IH.
Qed.

Lemma rstrip_by_length f s : String.length (rstrip_by f s) <= String.length s.
Proof.
  destruct (rstrip_by_spec f s) as (tail & Hs & _).
  rewrite Hs at 2. rewrite append_length. lia.
Qed.

Lemma rstrip_by_full f s :
  String.length (rstrip_by f s) = String.length s -> rstrip_by f s = s.
Proof.
  destruct (rstrip_by_spec f s) as (tail & Hs & _). intros H.
  rewrite Hs in H at 2. rewrite append_length in H.
  destruct tail; [|simpl in H; lia]. now rewrite append_nil_r in Hs.
Qed.

(** The parent is never longer than the path, and a parent of the same
    length is the path itself. *)
Lemma dirname_length p : String.length (dirname p) <= String.length p.
Proof.
  unfold dirname. pose proof (take_length (Z.to_nat (rfind sep p + 1)) p).
  destruct (_ && _); [|assumption].
  pose proof (rstrip_by_length is_sep (take (Z.to_nat (rfind sep p + 1)) p)). lia.
Qed.

Lemma dirname_full p :
  String.length (dirname p) = String.length p -> dirname p = p.
Proof.
  unfold dirname. pose proof (take_length (Z.to_nat (rfind sep p + 1)) p) as Ht.
  destruct (_ && _).
  - pose proof (rstrip_by_length is_sep (take (Z.to_nat (rfind sep p + 1)) p)) as Hr.
    intros H. rewrite rstrip_by_full by lia. apply take_full. lia.
  - apply take_full.
Qed.

Lemma ancestor_succ k p : ancestor (S k) p = ancestor k (dirname p).
Proof. unfold ancestor. apply Nat.iter_succ_r. Qed.

Lemma ancestor_length k p : String.length (ancestor k p) <= String.length p.
Proof.
  revert p. induction k as [|k IH]; intros p; [reflexivity|].
  rewrite ancestor_succ. specialize (IH (dirname p)).
  pose proof (dirname_length p). lia.
Qed.

Lemma ancestor_fixed k p : dirname p = p -> ancestor k p = p.
Proof.
  intros H. induction k as [|k IH]; [reflexivity|].
  now rewrite ancestor_succ, H.
Qed.

Lemma ancestor_empty k : ancestor k "" = "".
Proof. now apply ancestor_fixed. Qed.

(** A path that comes back to itself going up is its own parent. *)
Lemma ancestor_cycle j p : ancestor (S j) p = p -> dirname p = p.
Proof.
  intros H. apply dirname_full.
  pose proof (dirname_length p). pose proof (ancestor_length j (dirname p)) as Hl.
  rewrite <- ancestor_succ, H in Hl. lia.
Qed.

End Dirname.

(** ** The walk of [is_in_git_repo] *)

Section Walk.
Import PyStr PosixPath.
Variable fs : FileSystem.

Lemma truthy_length p : truthy p = true -> 0 < String.length p.
Proof. destruct p; [discriminate | simpl; lia]. Qed.

(** The walk ends: each round shortens the path, or finds it among the
    visited ones in the next round. *)
Lemma loop_terminates fuel : forall p (v : gset string),
  String.length p < fuel \/ (0 < fuel /\ p ∈ v) ->
  exists b, is_in_git_repo_loop fs fuel p v = Some b.
Proof.
  induction fuel as [|fuel IH]; intros p v H; [lia|].
  cbn [is_in_git_repo_loop].
  destruct (truthy p) eqn:Hp; [|eauto]. cbn [negb orb].
  destruct (bool_decide (p ∈ v)) eqn:Hv; [eauto|].
  apply bool_decide_eq_false in Hv.
  destruct (has_dot_git fs p); [eauto|].
  apply IH. destruct H as [H|[_ H]]; [|contradiction].
  pose proof (dirname_length p) as Hl. pose proof (truthy_length _ Hp).
  destruct (decide (String.length (dirname p) = String.length p)) as [E|E]; [|lia].
  right. split; [lia|]. rewrite (dirname_full _ E). set_solver.
Qed.

Lemma loop_more_fuel n : forall m p (v : gset string) b,
  n <= m ->
  is_in_git_repo_loop fs n p v = Some b -> is_in_git_repo_loop fs m p v = Some b.
Proof.
  induction n as [|n IH]; intros m p v b Hle H; [discriminate|].
  destruct m as [|m]; [lia|]. cbn [is_in_git_repo_loop] in *.
  destruct (negb (truthy p) || bool_decide (p ∈ v)); [assumption|].
  destruct (has_dot_git fs p); [assumption|].
  apply IH; [lia | assumption].
Qed.

(** The walk answers [True] only at a path that holds [.git]. *)
Lemma loop_true_inv fuel : forall p (v : gset string),
  is_in_git_repo_loop fs fuel p v = Some true ->
  exists k, has_dot_git fs (ancestor k p) = true.
Proof.
  induction fuel as [|fuel IH]; intros p v H; [discriminate|].
  cbn [is_in_git_repo_loop] in H.
  destruct (negb (truthy p) || bool_decide (p ∈ v)); [discriminate|].
  destruct (has_dot_git fs p) eqn:Hg; [now exists 0|].
  destruct (IH _ _ H) as [k Hk]. exists (S k). now rewrite ancestor_succ.
Qed.

(** The walk reaches every ancestor that holds [.git]: the visited set
    holds paths below the current one, none of which is the current one
    unless the walk is at a fixed point it has already tested. *)
Lemma loop_finds k : forall fuel p (v : gset string),
  has_dot_git fs (ancestor k p) = true ->
  ancestor k p <> "" ->
  (forall x, x ∈ v -> has_dot_git fs x = false /\ exists j, ancestor (S j) x = p) ->
  String.length p < fuel ->
  is_in_git_repo_loop fs fuel p v = Some true.
Proof.
  induction k as [|k IH]; intros fuel p v Hg Hne Hv Hfuel;
    (destruct fuel as [|fuel]; [lia|]); cbn [is_in_git_repo_loop].
  - change (ancestor 0 p) with p in *.
    destruct p as [|c p]; [contradiction|]. cbn [truthy negb orb].
    rewrite bool_decide_eq_false_2; [now rewrite Hg|].
    intros Hin. apply Hv in Hin as [Hf _]. congruence.
  - assert (Hp : truthy p = true).
    { destruct p; [|reflexivity]. now rewrite ancestor_empty in Hne. }
    rewrite Hp. cbn [negb orb].
    assert (Hfix : dirname p = p -> has_dot_git fs p = true).
    { intros E. now rewrite (ancestor_fixed _ _ E) in Hg. }
    rewrite bool_decide_eq_false_2.
    2:{ intros Hin. apply Hv in Hin as [Hf [j Hj]].
        apply ancestor_cycle in Hj. rewrite (Hfix Hj) in Hf. discriminate Hf. }
    destruct (has_dot_git fs p) eqn:Hgp; [reflexivity|].
    rewrite ancestor_succ in Hg, Hne. apply IH; try assumption.
    + intros x Hx. apply elem_of_union in Hx as [Hx|Hx].
      * apply elem_of_singleton in Hx as ->. split; [assumption | now exists 0].
      * apply Hv in Hx as [Hf [j Hj]]. split; [assumption|].
        exists (S j). rewrite ancestor_succ in *.
        change (ancestor (S j) (dirname x)) with (dirname (ancestor j (dirname x))).
        now rewrite Hj.
    + pose proof (dirname_length p).
      destruct (decide (String.length (dirname p) = String.length p)) as [E|E]; [|lia].
      apply dirname_full in E. discriminate (Hfix E).
Qed.

End Walk.

(** ** Directories below a directory *)

Section Descendants.
Import PyStr PosixPath.

Lemma rfind_absent c s : chr_in c s = false -> rfind c s = (-1)%Z.
Proof.
  induction s as [|a s IH]; [reflexivity|]. cbn [chr_in rfind].
  intros H. apply orb_false_iff in H as [Ha Hs]. now rewrite (IH Hs), Ha.
Qed.

Lemma rfind_last_sep c d seg :
  chr_in c seg = false ->
  rfind c (d +:+ String c seg) = Z.of_nat (String.length d).
Proof.
  intros Hseg. induction d as [|a d IH].
  - change ("" +:+ String c seg) with (String c seg). cbn [rfind].
    now rewrite (rfind_absent _ _ Hseg), Ascii.eqb_refl.
  - change (String a d +:+ String c seg) with (String a (d +:+ String c seg)).
    cbn [rfind]. rewrite IH.
    destruct (0 <=? Z.of_nat (String.length d))%Z eqn:E; [simpl; lia|].
    apply Z.leb_gt in E. lia.
Qed.

Lemma take_through_sep c d seg :
  take (S (String.length d)) (d +:+ String c seg) = d +:+ String c "".
Proof.
  induction d as [|a d IH]; [reflexivity|].
  change (String a d +:+ String c seg) with (String a (d +:+ String c seg)).
  change (String a d +:+ String c "") with (String a (d +:+ String c "")).
  change (take (S (String.length (String a d))) (String a (d +:+ String c seg)))
    with (String a (take (S (String.length d)) (d +:+ String c seg))).
  now rewrite IH.
Qed.

Lemma last_chr_app a b : truthy b = true -> last_chr (a +:+ b) = last_chr b.
Proof.
  intros Hb. induction a as [|c a IH]; [reflexivity|].
  change (String c a +:+ b) with (String c (a +:+ b)). cbn [last_chr].
  rewrite IH. destruct (a +:+ b) eqn:E; [|reflexivity].
  destruct a, b; discriminate.
Qed.

Lemma all_chr_last c s x :
  all_chr c s = true -> last_chr s = Some x -> Ascii.eqb x c = true.
Proof.
  induction s as [|a s IH]; [discriminate|]. cbn [all_chr last_chr].
  intros H. apply andb_true_iff in H as [Ha Hs].
  destruct s; [now intros [= <-] | now apply IH].
Qed.

Lemma all_chr_app_l c a b : all_chr c (a +:+ b) = true -> all_chr c a = true.
Proof.
  induction a as [|x a IH]; [reflexivity|].
  change (String x a +:+ b) with (String x (a +:+ b)). cbn [all_chr].
  intros H. apply andb_true_iff in H as [Hx Ha]. now rewrite Hx, IH.
Qed.

Lemma rstrip_one_sep d x :
  last_chr d = Some x -> is_sep x = false ->
  rstrip_by is_sep (d +:+ "/") = d.
Proof.
  intros Hl Hx. induction d as [|a d IH]; [discriminate|].
  change (String a d +:+ "/") with (String a (d +:+ "/")). cbn [rstrip_by].
  destruct d as [|b d].
  - injection Hl as ->. change ("" +:+ "/") with "/".
    cbn [rstrip_by]. change (is_sep "/") with true. cbv iota. now rewrite Hx.
  - rewrite IH by exact Hl. reflexivity.
Qed.

Lemma endswith_sep_last d :
  endswith "/" d = match last_chr d with
                   | Some x => is_sep x
                   | None => false
                   end.
Proof.
  induction d as [|a d IH]; [reflexivity|]. cbn [endswith last_chr].
  rewrite IH. destruct d as [|b d].
  - cbn [String.eqb]. unfold is_sep, sep.
    destruct (Ascii.eqb a "/"); reflexivity.
  - cbn [String.eqb]. destruct (Ascii.eqb a "/"); reflexivity.
Qed.

Lemma last_chr_not_sep seg :
  truthy seg = true -> chr_in sep seg = false ->
  exists x, last_chr seg = Some x /\ is_sep x = false.
Proof.
  induction seg as [|a seg IH]; [discriminate|]. intros _ Hc.
  cbn [chr_in] in Hc. apply orb_false_iff in Hc as [Ha Hs].
  destruct seg as [|b seg]; [now exists a|].
  destruct (IH eq_refl Hs) as (x & Hx & Hsep). now exists x.
Qed.

Lemma file_name_inv seg :
  file_name seg = true ->
  truthy seg = true /\ chr_in sep seg = false /\ startswith "/" seg = false
  /\ exists x, last_chr seg = Some x /\ is_sep x = false.
Proof.
  unfold file_name. intros H. apply andb_true_iff in H as [Ht Hc].
  apply negb_true_iff in Hc. repeat split; try assumption.
  - destruct seg as [|a seg]; [discriminate|]. cbn [chr_in startswith] in *.
    apply orb_false_iff in Hc as [Ha _]. unfold sep in Ha.
    rewrite Ascii.eqb_sym, Ha. reflexivity.
  - now apply last_chr_not_sep.
Qed.

(** The parent of [d/name] is [d]. *)
Lemma dirname_child d x seg :
  last_chr d = Some x -> is_sep x = false -> file_name seg = true ->
  dirname (d +:+ "/" +:+ seg) = d.
Proof.
  intros Hl Hx Hseg. apply file_name_inv in Hseg as (_ & Hc & _).
  unfold dirname. change (d +:+ "/" +:+ seg) with (d +:+ String sep seg).
  rewrite (rfind_last_sep _ _ _ Hc).
  replace (Z.to_nat (Z.of_nat (String.length d) + 1)) with (S (String.length d)) by lia.
  rewrite take_through_sep. change (String sep "") with "/".
  assert (Ht : truthy (d +:+ "/") = true) by (destruct d; [discriminate | reflexivity]).
  assert (Ha : all_chr sep (d +:+ "/") = false).
  { apply not_true_is_false. intros Ha. apply all_chr_app_l in Ha.
    pose proof (all_chr_last _ _ _ Ha Hl) as E. unfold is_sep in Hx. congruence. }
  rewrite Ht, Ha. cbn [negb andb]. exact (rstrip_one_sep _ _ Hl Hx).
Qed.

(** The parent of [/name] is the root. *)
Lemma dirname_root_child seg : file_name seg = true -> dirname ("/" +:+ seg) = "/".
Proof.
  intros Hseg. apply file_name_inv in Hseg as (_ & Hc & _).
  unfold dirname. change ("/" +:+ seg) with ("" +:+ String sep seg).
  rewrite (rfind_last_sep _ _ _ Hc). reflexivity.
Qed.

(** One round of [join] below a canonical directory: a canonical
    directory again, whose parent is the directory joined to. *)
Lemma join_step_child d seg :
  canonical_dir d = true -> file_name seg = true ->
  canonical_dir (join_step d seg) = true /\ dirname (join_step d seg) = d.
Proof.
  intros Hd Hseg. pose proof (file_name_inv _ Hseg) as (Ht & Hc & Hs & x & Hx & Hxs).
  unfold join_step. rewrite Hs, endswith_sep_last.
  unfold canonical_dir in Hd. apply orb_true_iff in Hd as [Hd|Hd].
  - apply String.eqb_eq in Hd as ->. cbn [truthy negb last_chr orb].
    change (is_sep "/") with true. cbv iota. split.
    + unfold canonical_dir. rewrite (last_chr_app _ _ Ht), Hx, Hxs. apply orb_true_r.
    + now apply dirname_root_child.
  - destruct (last_chr d) as [y|] eqn:Hy; [|discriminate].
    apply negb_true_iff in Hd. rewrite Hd.
    assert (Hdt : truthy d = true) by (destruct d; [discriminate | reflexivity]).
    rewrite Hdt. cbn [negb orb]. split.
    + unfold canonical_dir.
      rewrite (last_chr_app d ("/" +:+ seg)) by reflexivity.
      change ("/" +:+ seg) with (String "/" "" +:+ seg).
      rewrite (last_chr_app _ _ Ht), Hx, Hxs. apply orb_true_r.
    + exact (dirname_child _ _ _ Hy Hd Hseg).
Qed.

(** Going up from [join d names] as many times as there are names gives
    [d] back. *)
Lemma ancestor_of_joined names : forall d,
  canonical_dir d = true -> forallb file_name names = true ->
  ancestor (length names) (join d names) = d.
Proof.
  induction names as [|n names IH]; intros d Hd Hn; [reflexivity|].
  cbn [forallb] in Hn. apply andb_true_iff in Hn as [Hn Hns].
  destruct (join_step_child _ _ Hd Hn) as [Hc Hp].
  change (join d (n :: names)) with (join (join_step d n) names).
  change (ancestor (length (n :: names)) (join (join_step d n) names))
    with (dirname (ancestor (length names) (join (join_step d n) names))).
  now rewrite IH.
Qed.

Lemma canonical_dir_truthy d : canonical_dir d = true -> d <> "".
Proof. now intros H ->. Qed.

End Descendants.

(** ** Repository detection *)

Section Detection.
Import PyStr PosixPath.
Variable fs : FileSystem.

(** C8: (1) with as many rounds as the start path has characters, and
    one more, the walk ends with an answer, the same for any larger number
    of rounds; (2) the answer is [True] for every path whose canonical form
    is a canonical directory [d] holding a [.git] directory or file, followed
    by any number of names; (3) the answer is [False] when no path reached
    from the start by going up holds one. *)
Theorem is_in_git_repo_detects (path : string) :
  (exists b, forall fuel,
      rounds_for fs path <= fuel -> is_in_git_repo fs fuel path = Some b)
  /\ (forall d names,
         truthy path = true ->
         realpath fs path = join d names ->
         canonical_dir d = true -> forallb file_name names = true ->
         isdir fs (join d [".git"]) = true \/ isfile fs (join d [".git"]) = true ->
         forall fuel, rounds_for fs path <= fuel ->
                      is_in_git_repo fs fuel path = Some true)
  /\ ((forall k, has_dot_git fs (ancestor k (walk_start fs path)) = false) ->
      forall fuel, rounds_for fs path <= fuel ->
                   is_in_git_repo fs fuel path = Some false).
Proof.
  unfold is_in_git_repo, rounds_for.
  destruct (loop_terminates fs (S (String.length (walk_start fs path)))
              (walk_start fs path) ∅) as [b Hb]; [left; lia|].
  repeat split.
  - exists b. intros fuel Hle. eapply loop_more_fuel; eassumption.
  - intros d names Hp Hr Hd Hn Hg fuel Hle.
    unfold walk_start in *. rewrite Hp in *.
    apply loop_finds with (k := length names).
    + rewrite Hr, (ancestor_of_joined _ _ Hd Hn). unfold has_dot_git.
      destruct Hg as [-> | ->]; [reflexivity | apply orb_true_r].
    + rewrite Hr, (ancestor_of_joined _ _ Hd Hn). now apply canonical_dir_truthy.
    + intros x Hx. set_solver.
    + lia.
  - intros Hnone fuel Hle. eapply loop_more_fuel; [eassumption|].
    destruct b; [|assumption].
    apply loop_true_inv in Hb as [k Hk]. rewrite Hnone in Hk. discriminate Hk.
Qed.

End Detection.

Lemma is_in_git_repo_detects_witness :
  is_in_git_repo repo_fs (rounds_for repo_fs "/repo/src/pkg") "/repo/src/pkg"
  = Some true
  /\ is_in_git_repo bare_fs (rounds_for bare_fs "/repo/src/pkg") "/repo/src/pkg"
     = Some false.
Proof.
  split.
  - exact (proj1 (proj2 (is_in_git_repo_detects repo_fs "/repo/src/pkg"))
             "/repo" ["src"; "pkg"] eq_refl eq_refl eq_refl eq_refl
             (or_introl eq_refl) _ (le_n _)).
  - exact (proj2 (proj2 (is_in_git_repo_detects bare_fs "/repo/src/pkg"))
             (fun k => eq_refl) _ (le_n _)).
Defined.

(** ** The scenarios of the specification *)

(** An SCP-style URI whose host part holds a port. *)
Example scp_uri_with_port :
  get_url_from_remote_uri "git@host:2222:org/repo.git"
  = Some "https://host:2222/org/repo".
Proof. reflexivity. Qed.

Example unrecognized_uri : get_url_from_remote_uri "not-a-url" = None.
Proof. reflexivity. Qed.

(** Upstream [origin/main], remote [origin] over HTTPS. *)
Example tracked_https_remote :
  get_remote_web_url tracking_os sample_git None []
  = (Return (Some "https://github.com/acme/widgets"),
     [upstream_query sample_git; get_url_query sample_git "origin"]).
Proof. reflexivity. Qed.

(** No upstream and no remote given. *)
Example no_upstream_no_remote :
  get_remote_web_url failing_os sample_git None []
  = (Return None, [upstream_query sample_git]).
Proof. reflexivity. Qed.

(** A path outside any working tree. *)
Example outside_any_repository :
  is_in_git_repo repo_fs (rounds_for repo_fs "/home/user/notes")
                 "/home/user/notes" = Some false.
Proof. reflexivity. Qed.

(** * Further properties *)

(** ** More on URI normalization *)

Section MoreNormalization.
Import PyStr Re.

(** X1: normalization yields no value exactly when [git@] occurs nowhere
    in the URI (in any letter case) and the URI does not begin with
    [http://] or [https://] (in any letter case). *)
Theorem normalize_absent_iff (uri : string) :
  get_url_from_remote_uri uri = None
  <-> search re_git_at uri IGNORECASE = false
      /\ search re_http uri IGNORECASE = false.
Proof.
  split.
  - intros H. destruct (search re_git_at uri IGNORECASE) eqn:Hg.
    + rewrite (normalize_git_at _ Hg) in H. discriminate H.
    + destruct (search re_http uri IGNORECASE) eqn:Hh; [|auto].
      rewrite (normalize_http _ Hg Hh) in H. discriminate H.
  - intros [Hg Hh]. now apply normalize_other.
Qed.

(** X2: an [http(s)://] URI in which [git@] does not occur is returned
    without its final [.git], and as it is when it has no [.git] tail. *)
Theorem http_without_git_at (uri : string) :
  search re_http uri IGNORECASE = true ->
  search re_git_at uri IGNORECASE = false ->
  (forall x, uri = x +:+ ".git" -> get_url_from_remote_uri uri = Some x)
  /\ (dot_git_tail uri = false -> get_url_from_remote_uri uri = Some uri).
Proof.
  intros Hh Hg. rewrite (normalize_http _ Hg Hh). split.
  - intros x ->. now rewrite strip_dot_git_suffix.
  - intros Ht. now rewrite strip_dot_git_id.
Qed.

Lemma http_without_git_at_witness :
  get_url_from_remote_uri "HTTP://example.org/team/proj.git"
  = Some "HTTP://example.org/team/proj"
  /\ get_url_from_remote_uri "https://example.org/team/proj.GIT"
     = Some "https://example.org/team/proj.GIT".
Proof.
  split.
  - exact (proj1 (http_without_git_at "HTTP://example.org/team/proj.git"
                    eq_refl eq_refl) "HTTP://example.org/team/proj" eq_refl).
  - exact (proj2 (http_without_git_at "https://example.org/team/proj.GIT"
                    eq_refl eq_refl) eq_refl).
Defined.

(** X3: for a URI that begins with [ssh://] (in any letter case),
    normalization yields no value exactly when [git@] occurs nowhere in it. *)
Theorem ssh_uri_absent_iff (uri : string) :
  search re_ssh uri IGNORECASE = true ->
  (get_url_from_remote_uri uri = None
   <-> search re_git_at uri IGNORECASE = false).
Proof.
  intros Hs. split.
  - intros H. destruct (search re_git_at uri IGNORECASE) eqn:Hg; [|reflexivity].
    rewrite (normalize_git_at _ Hg) in H. discriminate H.
  - now apply ssh_without_git_at.
Qed.

Lemma ssh_uri_absent_iff_witness :
  get_url_from_remote_uri "SSH://example.org/team/proj.git" = None.
Proof.
  exact (proj2 (ssh_uri_absent_iff "SSH://example.org/team/proj.git" eq_refl)
           eq_refl).
Defined.

(** X4: what [strip_dot_git] does to any string: a final [.git] is
    removed; a [.git] before one final newline is removed and the newline
    kept; every other string comes back as it is. *)
Theorem strip_dot_git_cases (s : string) :
  (exists x, s = x +:+ ".git" /\ strip_dot_git s = x)
  \/ (exists x, s = x +:+ dot_git_nl
                /\ strip_dot_git s = x +:+ String newline "")
  \/ (dot_git_tail s = false /\ strip_dot_git s = s).
Proof.
  destruct (dot_git_tail s) eqn:Ht.
  - unfold dot_git_tail in Ht. apply orb_true_iff in Ht as [H|H];
      apply endswith_inv in H as [x ->].
    + left. exists x. split; [reflexivity | apply strip_dot_git_suffix].
    + right. left. exists x. split; [reflexivity | apply strip_dot_git_before_newline].
  - right. right. split; [reflexivity | now apply strip_dot_git_id].
Qed.

(** X5: an SCP-style URI without any colon after [git@] has an empty host:
    everything after [git@] becomes the path of [https:///...]. *)
Theorem scp_without_colon (rest : string) :
  chr_in ":" rest = false ->
  get_url_from_remote_uri ("git@" +:+ rest)
  = Some (strip_dot_git ("https:///" +:+ rest))
  /\ (dot_git_tail rest = false ->
      get_url_from_remote_uri ("git@" +:+ rest) = Some ("https:///" +:+ rest)).
Proof.
  intros Hc.
  assert (H : get_url_from_remote_uri ("git@" +:+ rest)
              = Some (strip_dot_git ("https:///" +:+ rest))).
  { rewrite normalize_git_at by reflexivity. unfold scp_url.
    change (drop 4 ("git@" +:+ rest)) with rest.
    now rewrite (split_without_sep _ _ Hc). }
  split; [exact H|]. intros Ht. rewrite H. f_equal.
  apply strip_dot_git_id.
  change ("https:///" +:+ rest) with ("https://" +:+ "/" +:+ rest).
  now apply dot_git_tail_after_slash.
Qed.

Lemma scp_without_colon_witness :
  get_url_from_remote_uri "git@example.org" = Some "https:///example.org".
Proof. exact (proj2 (scp_without_colon "example.org" eq_refl) eq_refl). Defined.

End MoreNormalization.

(** ** More on the process runner and the resolver *)

Section MoreRunner.
Import PyStr.
Variable os : OS.
Variable self : Git.

Lemma rstrip_by_all f s : all_chars f s = true -> rstrip_by f s = "".
Proof.
  induction s as [|c s IH]; [reflexivity|]. cbn [all_chars rstrip_by].
  intros H. apply andb_true_iff in H as [Hc Hs]. now rewrite (IH Hs), Hc.
Qed.

(** White space after a line that does not end in white space is what
    [rstrip] removes. *)
Lemma rstrip_by_line f line ws :
  all_chars f ws = true ->
  (forall c, last_chr line = Some c -> f c = false) ->
  rstrip_by f (line +:+ ws) = line.
Proof.
  intros Hws. induction line as [|a l IH]; intros Hl.
  - now apply rstrip_by_all.
  - change (String a l +:+ ws) with (String a (l +:+ ws)). cbn [rstrip_by].
    destruct l as [|b l].
    + change ("" +:+ ws) with ws. rewrite (rstrip_by_all _ _ Hws).
      now rewrite (Hl a eq_refl).
    + rewrite IH; [reflexivity|]. intros c Hc. apply Hl. exact Hc.
Qed.

(** X6: when the process exits with code zero and prints a line that does
    not end in white space, followed by white space only, [run] returns that
    line. *)
Theorem run_returns_line args timeout_s w line ws err :
  os w (spawned self args timeout_s) = Completed (line +:+ ws) err 0 ->
  all_space ws = true ->
  (forall c, last_chr line = Some c -> isspace c = false) ->
  run os self args timeout_s w = (Return line, w ++ [spawned self args timeout_s]).
Proof.
  intros Hos Hws Hl. rewrite run_unfold, Hos. cbn [Z.eqb].
  unfold rstrip. now rewrite rstrip_by_line.
Qed.

(** X7: [run] records exactly one invocation.  When the process runs to
    its end and [communicate] hands back its text, [run] returns a value
    exactly when the exit code is zero and raises [GitException] exactly when
    it is not; when the process does not complete in time [run] raises
    [TimeoutExpired] with the command and the limit, and when it cannot be
    started the start error passes through. *)
Theorem run_outcomes args timeout_s w :
  (run os self args timeout_s w).2 = w ++ [spawned self args timeout_s]
  /\ (forall out err ret_code,
         os w (spawned self args timeout_s) = Completed out err ret_code ->
         ((exists v, (run os self args timeout_s w).1 = Return v)
          <-> ret_code = 0%Z)
         /\ ((exists m, (run os self args timeout_s w).1 = Raise (GitException m))
             <-> ret_code <> 0%Z))
  /\ (os w (spawned self args timeout_s) = NotCompleted ->
      (run os self args timeout_s w).1
      = Raise (TimeoutExpired (git_bin self :: args) timeout_s))
  /\ (forall strerror,
         os w (spawned self args timeout_s) = NotStarted strerror ->
         (run os self args timeout_s w).1 = Raise (OSError strerror)).
Proof.
  rewrite run_unfold. cbn [fst snd]. split_and!.
  - reflexivity.
  - intros out err rc ->. destruct (rc =? 0)%Z eqn:Hrc.
    + apply Z.eqb_eq in Hrc as ->. split; split.
      * reflexivity.
      * eauto.
      * intros [m Hm]. discriminate Hm.
      * intros Hne. contradiction.
    + apply Z.eqb_neq in Hrc. split; split.
      * intros [v Hv]. discriminate Hv.
      * intros E. contradiction.
      * intros _. exact Hrc.
      * eauto.
  - now intros ->.
  - now intros strerror ->.
Qed.

End MoreRunner.

Lemma run_returns_line_witness :
  run tracking_os sample_git ["remote"; "get-url"; "origin"] default_timeout_s []
  = (Return "https://github.com/acme/widgets.git",
     [spawned sample_git ["remote"; "get-url"; "origin"] default_timeout_s]).
Proof.
  refine (run_returns_line tracking_os sample_git
            ["remote"; "get-url"; "origin"] default_timeout_s []
            "https://github.com/acme/widgets.git" (String newline "") ""
            eq_refl eq_refl _).
  intros c [= <-]. reflexivity.
Defined.

Lemma run_outcomes_witness :
  ((exists v, (run tracking_os sample_git ["remote"; "get-url"; "origin"]
                 default_timeout_s []).1 = Return v) <-> 0%Z = 0%Z)
  /\ (run hanging_os sample_git ["version"] default_timeout_s []).1
     = Raise (TimeoutExpired ["git"; "version"] default_timeout_s)
  /\ (run missing_git_os sample_git ["version"] default_timeout_s []).1
     = Raise (OSError "No such file or directory").
Proof.
  split_and!.
  - exact (proj1 (proj1 (proj2
             (run_outcomes tracking_os sample_git ["remote"; "get-url"; "origin"]
                default_timeout_s []))
             _ "" 0%Z eq_refl)).
  - exact (proj1 (proj2 (proj2
             (run_outcomes hanging_os sample_git ["version"] default_timeout_s [])))
             eq_refl).
  - exact (proj2 (proj2 (proj2
             (run_outcomes missing_git_os sample_git ["version"] default_timeout_s [])))
             _ eq_refl).
Defined.

Section MoreResolver.
Import PyStr.
Variable os : OS.
Variable self : Git.

(** The settings every query of the resolver shares. *)
Lemma resolver_query_settings inv :
  resolver_query self inv ->
  inv_cwd inv = repo_path self /\ inv_encoding inv = encoding self
  /\ inv_timeout inv = default_timeout_s
  /\ head (inv_cmd inv) = Some (git_bin self).
Proof. intros [-> | [remote ->]]; repeat split. Qed.

(** X8: one resolution spawns one or two processes after those already
    made; each is the upstream query or a [remote get-url], run in the
    directory of the handle, with its encoding, its executable and the
    default time limit. *)
Theorem resolver_spawns remote w :
  exists new,
    (get_remote_web_url os self remote w).2 = w ++ new
    /\ (length new = 1 \/ length new = 2)
    /\ Forall (resolver_query self) new
    /\ Forall (fun inv => inv_cwd inv = repo_path self
                          /\ inv_encoding inv = encoding self
                          /\ inv_timeout inv = default_timeout_s
                          /\ head (inv_cmd inv) = Some (git_bin self)) new.
Proof.
  assert (H : exists new,
             (get_remote_web_url os self remote w).2 = w ++ new
             /\ (length new = 1 \/ length new = 2)
             /\ Forall (resolver_query self) new).
  { assert (Hup : Forall (resolver_query self) [upstream_query self])
      by (constructor; [now left | constructor]).
    destruct (opt_truthy remote) eqn:Hr.
    - rewrite (get_remote_web_url_named _ _ _ _ Hr).
      exists [get_url_query self (default "" remote)].
      split; [reflexivity|]. split; [now left|].
      constructor; [right; now eexists | constructor].
    - rewrite (get_remote_web_url_upstream _ _ _ _ Hr).
      destruct (os w (upstream_query self)) as [out err rc| |e].
      + destruct (rc =? 0)%Z.
        * cbv zeta. cbn [snd]. rewrite <- app_assoc.
          eexists [_; _]. split; [reflexivity|]. split; [now right|].
          constructor; [now left|]. constructor; [right; now eexists | constructor].
        * exists [upstream_query self]. split; [reflexivity|]. split; [now left | exact Hup].
      + exists [upstream_query self]. split; [reflexivity|]. split; [now left | exact Hup].
      + exists [upstream_query self]. split; [reflexivity|]. split; [now left | exact Hup]. }
  destruct H as (new & Hw & Hl & Hq). exists new. repeat split; try assumption.
  eapply Forall_impl; [exact Hq|]. intros inv Hinv.
  now apply resolver_query_settings.
Qed.

(** The SCP form with its [.git], normalized. *)
Lemma scp_dot_git_url HOST PATH :
  chr_in ":" PATH = false ->
  get_url_from_remote_uri ("git@" +:+ HOST +:+ ":" +:+ PATH +:+ ".git")
  = Some ("https://" +:+ HOST +:+ "/" +:+ PATH).
Proof.
  intros Hp.
  assert (Hp' : chr_in ":" (PATH +:+ ".git") = false)
    by (rewrite chr_in_app, Hp; reflexivity).
  destruct (split_host_path HOST (PATH +:+ ".git") Hp') as [Hh Hl].
  rewrite normalize_git_at by reflexivity. unfold scp_url.
  change (drop 4 ("git@" +:+ HOST +:+ ":" +:+ PATH +:+ ".git"))
    with (HOST +:+ ":" +:+ PATH +:+ ".git").
  rewrite Hh, Hl.
  change (default "" (Some (PATH +:+ ".git"))) with (PATH +:+ ".git"). f_equal.
  rewrite <- (append_assoc "/"), <- (append_assoc HOST), <- (append_assoc "https://").
  apply strip_dot_git_suffix.
Qed.

(** The HTTPS form with its [.git], normalized. *)
Lemma https_dot_git_url HOST PATH :
  Re.search re_git_at ("https://" +:+ HOST +:+ "/" +:+ PATH) Re.IGNORECASE = false ->
  get_url_from_remote_uri (("https://" +:+ HOST +:+ "/" +:+ PATH) +:+ ".git")
  = Some ("https://" +:+ HOST +:+ "/" +:+ PATH).
Proof.
  intros Hg. rewrite normalize_http.
  - now rewrite strip_dot_git_suffix.
  - now rewrite git_at_search_app.
  - reflexivity.
Qed.

(** X9: with a remote given, when [remote get-url] exits with code zero
    and prints [git@HOST:PATH.git] followed by white space, the resolution
    spawns that process only and returns [https://HOST/PATH]. *)
Theorem explicit_remote_scp remote w HOST PATH ws err :
  truthy remote = true ->
  chr_in ":" PATH = false ->
  all_space ws = true ->
  os w (get_url_query self remote)
  = Completed (("git@" +:+ HOST +:+ ":" +:+ PATH +:+ ".git") +:+ ws) err 0 ->
  get_remote_web_url os self (Some remote) w
  = (Return (Some ("https://" +:+ HOST +:+ "/" +:+ PATH)),
     w ++ [get_url_query self remote]).
Proof.
  intros Hr Hp Hws Hos.
  rewrite get_remote_web_url_named by exact Hr.
  cbn [default from_option id]. rewrite Hos. cbn [Z.eqb].
  unfold rstrip. rewrite rstrip_by_line; [|exact Hws|].
  - now rewrite scp_dot_git_url.
  - intros c Hc.
    rewrite <- (append_assoc ":"), <- (append_assoc HOST),
      <- (append_assoc "git@") in Hc.
    rewrite last_chr_app in Hc by reflexivity. now injection Hc as <-.
Qed.

(** X10: without a remote given, when the upstream query prints
    [refs/remotes/R/B] and [remote get-url R] prints [https://HOST/PATH.git]
    followed by white space, both with exit code zero and with no [git@] in
    the URL, the resolution returns [https://HOST/PATH]. *)
Theorem tracked_remote_https remote w out err R B HOST PATH ws err' :
  opt_truthy remote = false ->
  os w (upstream_query self) = Completed out err 0 ->
  rstrip out = "refs/remotes/" +:+ R +:+ "/" +:+ B ->
  chr_in "/" R = false ->
  Re.search re_git_at ("https://" +:+ HOST +:+ "/" +:+ PATH) Re.IGNORECASE = false ->
  all_space ws = true ->
  os (w ++ [upstream_query self]) (get_url_query self R)
  = Completed ((("https://" +:+ HOST +:+ "/" +:+ PATH) +:+ ".git") +:+ ws) err' 0 ->
  get_remote_web_url os self remote w
  = (Return (Some ("https://" +:+ HOST +:+ "/" +:+ PATH)),
     w ++ [upstream_query self; get_url_query self R]).
Proof.
  intros Hr Hos1 Hout HR Hg Hws Hos2.
  rewrite get_remote_web_url_upstream by exact Hr.
  rewrite Hos1. cbn [Z.eqb]. cbv zeta.
  rewrite Hout, (remote_of_upstream_ref _ _ HR), Hos2. cbn [Z.eqb].
  rewrite <- app_assoc. f_equal. f_equal.
  unfold rstrip. rewrite rstrip_by_line; [|exact Hws|].
  - now apply https_dot_git_url.
  - intros c Hc. rewrite last_chr_app in Hc by reflexivity. now injection Hc as <-.
Qed.

(** The first piece of a split holds no separator. *)
Lemma split_first_no_sep sep n s :
  match head (split sep (Some (S n)) s) with
  | Some h => chr_in sep h = false
  | None => True
  end.
Proof.
  induction s as [|c s IH]; [reflexivity|]. cbn [split].
  destruct (Ascii.eqb c sep) eqn:E; [reflexivity|].
  destruct (split sep (Some (S n)) s) as [|h t]; cbn [cons_first head] in *.
  - cbn [chr_in]. now rewrite E.
  - cbn [chr_in]. now rewrite E, IH.
Qed.

(** X11: the remote name taken from an upstream ref never holds a [/],
    whatever the upstream query printed. *)
Theorem remote_of_upstream_no_slash (upstream : string) :
  chr_in "/" (remote_of_upstream upstream) = false.
Proof.
  unfold remote_of_upstream.
  pose proof (split_first_no_sep "/" 1
                (Re.sub re_refs_remotes "" upstream 0 0)) as H.
  destruct (head _); [exact H | reflexivity].
Qed.

End MoreResolver.

Lemma explicit_remote_scp_witness :
  get_remote_web_url
    (fun _ _ => Completed (("git@" +:+ "gitlab.com" +:+ ":" +:+ "team/proj" +:+ ".git")
                             +:+ String newline "") "" 0)
    sample_git (Some "origin") []
  = (Return (Some "https://gitlab.com/team/proj"),
     [get_url_query sample_git "origin"]).
Proof.
  exact (explicit_remote_scp _ sample_git "origin" [] "gitlab.com" "team/proj"
           (String newline "") "" eq_refl eq_refl eq_refl eq_refl).
Defined.

Lemma tracked_remote_https_witness :
  get_remote_web_url tracking_os sample_git None []
  = (Return (Some "https://github.com/acme/widgets"),
     [upstream_query sample_git; get_url_query sample_git "origin"]).
Proof.
  exact (tracked_remote_https tracking_os sample_git None []
           _ "" "origin" "main" "github.com" "acme/widgets" (String newline "") ""
           eq_refl eq_refl eq_refl eq_refl eq_refl eq_refl eq_refl).
Defined.

(** ** The version query *)

Section Version.
Import PyStr ReGroups.

Lemma take_app_length a r : take (String.length a) (a +:+ r) = a.
Proof.
  induction a as [|c a IH]; [now destruct r|].
  change (take (String.length (String c a)) (String c a +:+ r))
    with (String c (take (String.length a) (a +:+ r))).
  now rewrite IH.
Qed.

Lemma drop_app_length a r : drop (String.length a) (a +:+ r) = r.
Proof. induction a as [|c a IH]; [reflexivity | exact IH]. Qed.

Lemma digit_run_number a r :
  all_chars PyInt.isdigit a = true -> no_leading_digit r = true ->
  digit_run (a +:+ r) = String.length a.
Proof.
  intros Ha Hr. induction a as [|c a IH].
  - change ("" +:+ r) with r. destruct r as [|x r]; [reflexivity|].
    cbn [no_leading_digit] in Hr. apply negb_true_iff in Hr.
    cbn [digit_run]. now rewrite Hr.
  - cbn [all_chars] in Ha. apply andb_true_iff in Ha as [Hc Ha].
    change (String c a +:+ r) with (String c (a +:+ r)).
    cbn [digit_run String.length]. now rewrite Hc, (IH Ha).
Qed.

(** A number followed by something that is no digit fills the group. *)
Lemma match_here_number p a r groups :
  is_number a = true -> no_leading_digit r = true ->
  match_here p r = Some groups ->
  match_here (GDigits :: p) (a +:+ r) = Some (a :: groups).
Proof.
  unfold is_number. intros Ha Hr Hm. apply andb_true_iff in Ha as [Hne Ha].
  cbn [match_here]. rewrite (digit_run_number _ _ Ha Hr).
  destruct a as [|c a]; [discriminate|].
  cbn [String.length first_success].
  change (S (String.length a)) with (String.length (String c a)).
  now rewrite take_app_length, drop_app_length, Hm.
Qed.

Lemma match_here_lit p c r : match_here (GLit c :: p) (String c r) = match_here p r.
Proof. cbn [match_here]. now rewrite Ascii.eqb_refl. Qed.

(** No match begins at a character that is no digit. *)
Lemma search_skips_non_digits p pre s :
  digit_free pre = true ->
  search (GDigits :: p) (pre +:+ s) = search (GDigits :: p) s.
Proof.
  intros Hpre. induction pre as [|x pre IH]; [reflexivity|].
  cbn [digit_free all_chars] in Hpre. apply andb_true_iff in Hpre as [Hx Hpre].
  apply negb_true_iff in Hx.
  change (String x pre +:+ s) with (String x (pre +:+ s)).
  cbn [search match_here digit_run]. rewrite Hx. cbn [first_success].
  now apply IH.
Qed.

Lemma search_digit_free p s :
  digit_free s = true -> search (GDigits :: p) s = None.
Proof.
  intros H. rewrite <- (append_nil_r s).
  rewrite (search_skips_non_digits _ _ _ H). reflexivity.
Qed.

(** The first [a.b.c] of an output that has no digit before it. *)
Lemma version_of_output_triple pre a b c post :
  digit_free pre = true ->
  is_number a = true -> is_number b = true -> is_number c = true ->
  no_leading_digit post = true ->
  version_of_output (pre +:+ a +:+ "." +:+ b +:+ "." +:+ c +:+ post)
  = Some (PyInt.int a, PyInt.int b, PyInt.int c).
Proof.
  intros Hpre Ha Hb Hc Hpost. unfold version_of_output, re_version.
  rewrite (search_skips_non_digits _ _ _ Hpre).
  assert (Hm : match_here [GDigits; GLit "."; GDigits; GLit "."; GDigits]
                 (a +:+ "." +:+ b +:+ "." +:+ c +:+ post) = Some [a; b; c]).
  { apply match_here_number; [assumption | reflexivity|].
    change ("." +:+ b +:+ "." +:+ c +:+ post)
      with (String "." (b +:+ "." +:+ c +:+ post)).
    rewrite match_here_lit.
    apply match_here_number; [assumption | reflexivity|].
    change ("." +:+ c +:+ post) with (String "." (c +:+ post)).
    rewrite match_here_lit.
    now apply match_here_number. }
  destruct (a +:+ "." +:+ b +:+ "." +:+ c +:+ post) eqn:E;
    cbn [search]; now rewrite Hm.
Qed.

Variable os : OS.
Variable self : Git.

Lemma get_version_unfold w :
  get_version os self w
  = (match os w (spawned self ["version"] default_timeout_s) with
     | Completed out err ret_code =>
         if (ret_code =? 0)%Z then Return (version_of_output (rstrip out))
         else Return None
     | NotCompleted =>
         Raise (TimeoutExpired [git_bin self; "version"] default_timeout_s)
     | NotStarted strerror => Raise (OSError strerror)
     end, w ++ [spawned self ["version"] default_timeout_s]).
Proof.
  unfold get_version, try_except_GitException, py_bind. rewrite run_unfold.
  destruct (os w _) as [out err rc| |e]; try reflexivity.
  destruct (rc =? 0)%Z; reflexivity.
Qed.

(** X12: when [git version] exits with code zero and its output, white
    space at the end aside, holds [a.b.c] with no digit before it and none
    right after it, [get_version] returns the three numbers. *)
Theorem get_version_parses w out err pre a b c post :
  os w (spawned self ["version"] default_timeout_s) = Completed out err 0 ->
  rstrip out = pre +:+ a +:+ "." +:+ b +:+ "." +:+ c +:+ post ->
  digit_free pre = true ->
  is_number a = true -> is_number b = true -> is_number c = true ->
  no_leading_digit post = true ->
  get_version os self w
  = (Return (Some (PyInt.int a, PyInt.int b, PyInt.int c)),
     w ++ [spawned self ["version"] default_timeout_s]).
Proof.
  intros Hos Hout Hpre Ha Hb Hc Hpost.
  rewrite get_version_unfold, Hos. cbn [Z.eqb].
  now rewrite Hout, version_of_output_triple.
Qed.

(** X13: [get_version] spawns [git version] and nothing else, never lets a
    [GitException] out, and returns no version when the process exits with a
    non-zero code or prints no digit; a process that does not complete in
    time makes it raise [TimeoutExpired]. *)
Theorem get_version_absent w :
  (get_version os self w).2 = w ++ [spawned self ["version"] default_timeout_s]
  /\ (forall message, (get_version os self w).1 <> Raise (GitException message))
  /\ (forall out err ret_code,
         os w (spawned self ["version"] default_timeout_s)
         = Completed out err ret_code ->
         ret_code <> 0%Z \/ digit_free (rstrip out) = true ->
         (get_version os self w).1 = Return None)
  /\ (os w (spawned self ["version"] default_timeout_s) = NotCompleted ->
      (get_version os self w).1
      = Raise (TimeoutExpired [git_bin self; "version"] default_timeout_s)).
Proof.
  rewrite get_version_unfold. cbn [fst snd]. split_and!.
  - reflexivity.
  - intros message. destruct (os w _) as [out err rc| |e]; try discriminate.
    destruct (rc =? 0)%Z; discriminate.
  - intros out err rc -> [Hne | Hd].
    + apply Z.eqb_neq in Hne. now rewrite Hne.
    + destruct (rc =? 0)%Z; [|reflexivity].
      unfold version_of_output, re_version. now rewrite search_digit_free.
  - now intros ->.
Qed.

End Version.

Lemma get_version_parses_witness :
  get_version (fun _ _ => Completed "git version 2.39.2.windows.1" "" 0)
              sample_git []
  = (Return (Some (2%N, 39%N, 2%N)), [spawned sample_git ["version"] default_timeout_s]).
Proof.
  exact (get_version_parses _ sample_git [] "git version 2.39.2.windows.1" ""
           "git version " "2" "39" "2"
           ".windows.1" eq_refl eq_refl eq_refl eq_refl eq_refl eq_refl eq_refl).
Defined.

Lemma get_version_absent_witness :
  (get_version failing_os sample_git []).1 = Return None
  /\ (get_version hanging_os sample_git []).1
     = Raise (TimeoutExpired ["git"; "version"] default_timeout_s).
Proof.
  split.
  - refine (proj1 (proj2 (proj2 (get_version_absent failing_os sample_git [])))
              "" "fatal: no upstream" 128%Z eq_refl (or_introl _)).
    discriminate.
  - exact (proj2 (proj2 (proj2 (get_version_absent hanging_os sample_git [])))
             eq_refl).
Defined.

(** ** More on repository detection *)

Section MoreDetection.
Import PyStr PosixPath.
Variable fs : FileSystem.

(** The walk answers [True] only at a non-empty path that holds [.git]. *)
Lemma loop_true_nonempty fuel : forall p (v : gset string),
  is_in_git_repo_loop fs fuel p v = Some true ->
  exists k, ancestor k p <> "" /\ has_dot_git fs (ancestor k p) = true.
Proof.
  induction fuel as [|fuel IH]; intros p v H; [discriminate|].
  cbn [is_in_git_repo_loop] in H.
  destruct (truthy p) eqn:Hp; [|discriminate]. cbn [negb orb] in H.
  destruct (bool_decide (p ∈ v)); [discriminate|].
  destruct (has_dot_git fs p) eqn:Hg.
  - exists 0. split; [|exact Hg]. intros E. change (ancestor 0 p) with p in E.
    rewrite E in Hp. discriminate Hp.
  - destruct (IH _ _ H) as (k & Hne & Hk). exists (S k).
    now rewrite ancestor_succ.
Qed.

(** X16: with enough rounds, [is_in_git_repo] answers [True] exactly when
    some path reached from the start by going up any number of times is not
    empty and holds a [.git] directory or file, and [False] otherwise. *)
Theorem is_in_git_repo_iff (path : string) (fuel : nat) :
  rounds_for fs path <= fuel ->
  (is_in_git_repo fs fuel path = Some true
   <-> exists k, ancestor k (walk_start fs path) <> ""
                 /\ has_dot_git fs (ancestor k (walk_start fs path)) = true)
  /\ (is_in_git_repo fs fuel path = Some false
      <-> forall k, ancestor k (walk_start fs path) = ""
                    \/ has_dot_git fs (ancestor k (walk_start fs path)) = false).
Proof.
  unfold is_in_git_repo, rounds_for. intros Hfuel.
  assert (Hfind : (exists k, ancestor k (walk_start fs path) <> ""
                     /\ has_dot_git fs (ancestor k (walk_start fs path)) = true) ->
                  is_in_git_repo_loop fs fuel (walk_start fs path) ∅ = Some true).
  { intros (k & Hne & Hg). apply loop_finds with (k := k).
    - exact Hg.
    - exact Hne.
    - intros x Hx. set_solver.
    - lia. }
  destruct (loop_terminates fs fuel (walk_start fs path) ∅) as [b Hb]; [left; lia|].
  split; split.
  - apply loop_true_nonempty.
  - exact Hfind.
  - intros Hf k.
    destruct (decide (ancestor k (walk_start fs path) = "")) as [E|E]; [now left|].
    right. apply not_true_is_false. intros Hg.
    rewrite Hfind in Hf by eauto. discriminate Hf.
  - intros Hall. rewrite Hb. destruct b; [|reflexivity].
    rewrite Hb in Hfind. apply loop_true_nonempty in Hb as (k & Hne & Hg).
    destruct (Hall k) as [E|E]; [contradiction | congruence].
Qed.

(** Below a canonical directory that holds [.git] the walk answers [True]. *)
Lemma walk_finds_joined path d names fuel :
  truthy path = true ->
  realpath fs path = join d names ->
  canonical_dir d = true -> forallb file_name names = true ->
  has_dot_git fs d = true ->
  rounds_for fs path <= fuel ->
  is_in_git_repo fs fuel path = Some true.
Proof.
  unfold is_in_git_repo, rounds_for, walk_start. intros Hp Hr Hd Hn Hg Hfuel.
  rewrite Hp in *. apply loop_finds with (k := length names).
  - now rewrite Hr, (ancestor_of_joined _ _ Hd Hn).
  - rewrite Hr, (ancestor_of_joined _ _ Hd Hn). now apply canonical_dir_truthy.
  - intros x Hx. set_solver.
  - lia.
Qed.

End MoreDetection.

Lemma is_in_git_repo_iff_witness :
  is_in_git_repo repo_fs 20 "/repo/src/pkg" = Some true.
Proof.
  refine (proj2 (proj1 (is_in_git_repo_iff repo_fs "/repo/src/pkg" 20 _)) _).
  - vm_compute. lia.
  - exists 2. split; [discriminate | reflexivity].
Defined.

(** ** The constructor, the host window and the command *)

Section Handle.
Import PyStr PosixPath.
Variable fs : FileSystem.
Variable which : Which.

Lemma join_snoc d names n : join d (names ++ [n]) = join_step (join d names) n.
Proof. unfold join. now rewrite fold_left_app. Qed.

Lemma canonical_joined names : forall d,
  canonical_dir d = true -> forallb file_name names = true ->
  canonical_dir (join d names) = true.
Proof.
  induction names as [|n names IH]; intros d Hd Hn; [exact Hd|].
  cbn [forallb] in Hn. apply andb_true_iff in Hn as [Hn Hns].
  change (join d (n :: names)) with (join (join_step d n) names).
  apply IH; [|exact Hns]. now apply join_step_child.
Qed.

Lemma canonical_dir_nonempty d : canonical_dir d = true -> truthy d = true.
Proof. destruct d; [discriminate | reflexivity]. Qed.

Lemma str_or_truthy a b : truthy b = true -> truthy (str_or a b) = true.
Proof.
  intros Hb. unfold str_or. destruct a as [s|]; [|exact Hb].
  destruct (truthy s) eqn:Hs; [exact Hs | exact Hb].
Qed.

(** X14: the handle built for a path: a path that is no regular file is
    kept; a regular file [d/name] is replaced by its directory [d]; the
    executable is never the empty string when the name asked for is not. *)
Theorem Git_init_handle (path git_bin_name encoding_name : string) :
  (isfile fs path = false ->
   repo_path (Git_init fs which path git_bin_name encoding_name) = path)
  /\ (forall d name,
         isfile fs path = true ->
         path = join d [name] ->
         canonical_dir d = true -> file_name name = true ->
         repo_path (Git_init fs which path git_bin_name encoding_name) = d)
  /\ (truthy git_bin_name = true ->
      truthy (git_bin (Git_init fs which path git_bin_name encoding_name)) = true).
Proof.
  unfold Git_init. cbn [repo_path git_bin]. split_and!.
  - now intros ->.
  - intros d name -> -> Hd Hn. change (join d [name]) with (join_step d name).
    now apply join_step_child.
  - apply str_or_truthy.
Qed.

(** X15: a window whose active view shows a file with a non-empty name
    gives a handle for that file, whatever its folders; otherwise the first
    folder alone decides, and there is no handle when it is missing or empty. *)
Theorem create_git_object_path (window : Window) :
  (forall view f,
      active_view window = Some view -> view_file_name view = Some f ->
      truthy f = true ->
      create_git_object fs which window = Some (Git_init fs which f "git" "utf-8"))
  /\ ((forall view f,
          active_view window = Some view -> view_file_name view = Some f ->
          truthy f = false) ->
      create_git_object fs which window
      = match folders window with
        | first :: _ =>
            if truthy first then Some (Git_init fs which first "git" "utf-8")
            else None
        | [] => None
        end).
Proof.
  unfold create_git_object. split.
  - intros view f -> Hf Ht. unfold str_or. rewrite Hf, Ht. cbv iota.
    rewrite Ht. cbn [negb]. cbv iota. now rewrite Ht.
  - intros Hno.
    assert (E : match active_view window with
                | Some v => str_or (view_file_name v) ""
                | None => ""
                end = "").
    { destruct (active_view window) as [view|]; [|reflexivity].
      unfold str_or. destruct (view_file_name view) as [f|] eqn:Hf; [|reflexivity].
      now rewrite (Hno view f eq_refl Hf). }
    rewrite E. cbn [truthy negb].
    destruct (folders window) as [|first rest]; [reflexivity|].
    cbn [head default from_option id]. now destruct (truthy first).
Qed.

(** X17: the command is enabled for a regular file anywhere below a
    canonical directory that holds a [.git] directory or file, when the
    directory of the file is its own canonical form. *)
Theorem is_enabled_in_repo d names name dirs fuel :
  canonical_dir d = true ->
  forallb file_name names = true -> file_name name = true ->
  isfile fs (join d (names ++ [name])) = true ->
  realpath fs (join d names) = join d names ->
  has_dot_git fs d = true ->
  String.length (join d names) < fuel ->
  is_enabled fs which (window_on_file (join d (names ++ [name])) dirs) fuel
  = Some true.
Proof.
  intros Hd Hns Hn Hfile Hreal Hg Hfuel.
  pose proof (canonical_joined _ _ Hd Hns) as Hc.
  destruct (join_step_child _ _ Hc Hn) as [Hcf Hdir].
  rewrite <- join_snoc in Hcf, Hdir.
  unfold is_enabled, create_git_object, window_on_file.
  cbn [active_view view_file_name folders]. unfold str_or.
  repeat (rewrite (canonical_dir_nonempty _ Hcf); cbn [negb]; cbv iota).
  unfold Git_init. cbn [repo_path]. rewrite Hfile, Hdir.
  apply walk_finds_joined with (d := d) (names := names); try assumption.
  - now apply canonical_dir_nonempty.
  - unfold rounds_for, walk_start.
    rewrite (canonical_dir_nonempty _ Hc), Hreal. lia.
Qed.

End Handle.

Lemma Git_init_handle_witness :
  repo_path (Git_init source_fs no_git_on_path "/repo/src" "git" "utf-8")
  = "/repo/src"
  /\ repo_path (Git_init source_fs no_git_on_path "/repo/src/a.py" "git" "utf-8")
     = "/repo/src"
  /\ PyStr.truthy (git_bin (Git_init source_fs git_on_path "/repo" "git" "utf-8"))
     = true.
Proof.
  split; [|split].
  - exact (proj1 (Git_init_handle source_fs no_git_on_path "/repo/src" "git" "utf-8")
             eq_refl).
  - exact (proj1 (proj2 (Git_init_handle source_fs no_git_on_path
                           "/repo/src/a.py" "git" "utf-8"))
             "/repo/src" "a.py" eq_refl eq_refl eq_refl eq_refl).
  - exact (proj2 (proj2 (Git_init_handle source_fs git_on_path "/repo" "git" "utf-8"))
             eq_refl).
Defined.

Lemma create_git_object_path_witness :
  create_git_object source_fs git_on_path
    (window_on_file "/repo/src/a.py" ["/elsewhere"])
  = Some (Git_init source_fs git_on_path "/repo/src/a.py" "git" "utf-8")
  /\ create_git_object source_fs git_on_path
       {| active_view := None; folders := ["/repo"; "/elsewhere"] |}
     = Some (Git_init source_fs git_on_path "/repo" "git" "utf-8").
Proof.
  split.
  - exact (proj1 (create_git_object_path source_fs git_on_path
                    (window_on_file "/repo/src/a.py" ["/elsewhere"]))
             _ "/repo/src/a.py" eq_refl eq_refl eq_refl).
  - refine (proj2 (create_git_object_path source_fs git_on_path
                     {| active_view := None; folders := ["/repo"; "/elsewhere"] |}) _).
    intros view f H. discriminate H.
Defined.

Lemma is_enabled_in_repo_witness :
  is_enabled source_fs git_on_path (window_on_file "/repo/src/a.py" []) 10
  = Some true.
Proof.
  refine (is_enabled_in_repo source_fs git_on_path "/repo" ["src"] "a.py" [] 10
            eq_refl eq_refl eq_refl eq_refl eq_refl eq_refl _).
  vm_compute. lia.
Defined.

Section Command.
Import PyStr Re.
Variable fs : FileSystem.
Variable which : Which.
Variable os : OS.

(** A normalized URL is not empty and begins with [http]. *)
Lemma normalized_some_inv uri url :
  get_url_from_remote_uri uri = Some url ->
  url <> "" /\ begins_with_ci "http" url = true.
Proof.
  destruct (search re_git_at uri IGNORECASE) eqn:Hg.
  - rewrite (normalize_git_at _ Hg). unfold scp_url.
    set (rest := _ +:+ "/" +:+ _).
    change ("https://" +:+ rest)
      with (String "h" (String "t" (String "t" (String "p" ("s://" +:+ rest))))).
    rewrite !strip_dot_git_cons by discriminate.
    intros [= <-]. split; [discriminate | reflexivity].
  - destruct (search re_http uri IGNORECASE) eqn:Hh.
    + rewrite (normalize_http _ Hg Hh).
      apply http_match_inv in Hh as (c1 & c2 & c3 & c4 & r & -> & E1 & E2 & E3 & E4).
      rewrite !strip_dot_git_cons
        by (eapply letter_not_dot; [|eassumption]; reflexivity).
      intros [= <-]. split; [discriminate|].
      cbn [begins_with_ci]. unfold chr_eq in E1, E2, E3, E4.
      now rewrite E1, E2, E3, E4.
    + rewrite (normalize_other _ Hg Hh). discriminate.
Qed.

(** Every URL the resolver returns comes out of the normalization. *)
Lemma resolved_url_normalized self remote w url :
  (get_remote_web_url os self remote w).1 = Return (Some url) ->
  exists uri, get_url_from_remote_uri uri = Some url.
Proof.
  destruct (opt_truthy remote) eqn:Hr.
  - rewrite (get_remote_web_url_named _ _ _ _ Hr). cbn [fst].
    destruct (os w _) as [out err rc| |e]; try discriminate.
    destruct (rc =? 0)%Z; [|discriminate]. intros [= H]. eauto.
  - rewrite (get_remote_web_url_upstream _ _ _ _ Hr).
    destruct (os w (upstream_query self)) as [out err rc| |e]; try discriminate.
    destruct (rc =? 0)%Z; [|discriminate]. cbv zeta. cbn [fst].
    destruct (os (w ++ [upstream_query self]) _) as [out' err' rc'| |e'];
      try discriminate.
    destruct (rc' =? 0)%Z; [|discriminate]. intros [= H]. eauto.
Qed.

(** X18: the command calls the host at most once.  Without a handle it
    does nothing at all; when the resolution returns, it shows the one error
    message or opens one URL, which is then not empty and begins with [http]
    in some letter case; when the resolution raises, the exception leaves the
    command and the host is not called. *)
Theorem command_run_events (window : Window) (remote : option string) (w : world) :
  (create_git_object fs which window = None ->
   command_run fs which os window remote w = (Return [], w))
  /\ (forall git events,
         create_git_object fs which window = Some git ->
         (command_run fs which os window remote w).1 = Return events ->
         events = [ErrorMessage "Can't determine repo web URL..."]
         \/ exists url, events = [OpenUrl url] /\ url <> ""
                        /\ begins_with_ci "http" url = true)
  /\ (forall git e,
         create_git_object fs which window = Some git ->
         (get_remote_web_url os git remote w).1 = Raise e ->
         command_run fs which os window remote w
         = (Raise e, (get_remote_web_url os git remote w).2)).
Proof.
  unfold command_run. split_and!.
  - now intros ->.
  - intros git events -> . unfold py_bind.
    destruct (get_remote_web_url os git remote w) as [[r|e] w'] eqn:E;
      [|discriminate].
    destruct r as [url|]; cbn [opt_truthy negb].
    + destruct (truthy url) eqn:Hu; cbn [negb fst py_ret].
      * intros [= <-]. right. exists url. split; [reflexivity|].
        assert (Hres : (get_remote_web_url os git remote w).1 = Return (Some url))
          by now rewrite E.
        apply resolved_url_normalized in Hres as [uri Huri].
        now apply normalized_some_inv in Huri.
      * intros [= <-]. now left.
    + intros [= <-]. now left.
  - intros git e -> He. unfold py_bind.
    destruct (get_remote_web_url os git remote w) as [[r|e'] w']; [discriminate|].
    now injection He as ->.
Qed.

End Command.

Lemma command_run_events_witness :
  command_run source_fs git_on_path tracking_os
    {| active_view := None; folders := [] |} None [] = (Return [], [])
  /\ ([OpenUrl "https://github.com/acme/widgets"]
      = [ErrorMessage "Can't determine repo web URL..."]
      \/ exists url, [OpenUrl "https://github.com/acme/widgets"] = [OpenUrl url]
                     /\ url <> "" /\ begins_with_ci "http" url = true)
  /\ (command_run source_fs git_on_path hanging_os
        (window_on_file "/repo/src/a.py" []) None []).1
     = Raise (TimeoutExpired
                ["/usr/bin/git"; "rev-parse"; "--symbolic-full-name"; "@{upstream}"]
                default_timeout_s).
Proof.
  split; [|split].
  - exact (proj1 (command_run_events source_fs git_on_path tracking_os
                    {| active_view := None; folders := [] |} None []) eq_refl).
  - exact (proj1 (proj2 (command_run_events source_fs git_on_path tracking_os
                           (window_on_file "/repo/src/a.py" []) None []))
             _ [OpenUrl "https://github.com/acme/widgets"] eq_refl eq_refl).
  - exact (f_equal fst
             (proj2 (proj2 (command_run_events source_fs git_on_path hanging_os
                              (window_on_file "/repo/src/a.py" []) None []))
                _ _ eq_refl eq_refl)).
Defined.

(** ** Where a version comes from *)

Section VersionSound.
Import PyStr ReGroups.

Lemma take_drop n s : take n s +:+ drop n s = s.
Proof.
  revert n. induction s as [|c s IH]; intros [|n]; try reflexivity.
  change (String c (take n s +:+ drop n s) = String c s). now rewrite IH.
Qed.

Lemma take_digits n s :
  n <= digit_run s -> all_chars PyInt.isdigit (take n s) = true.
Proof.
  revert n. induction s as [|c s IH]; intros [|n]; try reflexivity.
  cbn [digit_run]. destruct (PyInt.isdigit c) eqn:Hc; [|lia]. intros Hn.
  change (take (S n) (String c s)) with (String c (take n s)).
  cbn [all_chars]. rewrite Hc. apply IH. lia.
Qed.

Lemma take_nonempty n s : 0 < n -> n <= digit_run s -> truthy (take n s) = true.
Proof.
  destruct n as [|n]; [lia|]. destruct s as [|c s]; [cbn [digit_run]; lia|].
  reflexivity.
Qed.

Lemma drop_digit_run s : no_leading_digit (drop (digit_run s) s) = true.
Proof.
  induction s as [|c s IH]; [reflexivity|]. cbn [digit_run].
  destruct (PyInt.isdigit c) eqn:Hc; [exact IH|].
  cbn [drop no_leading_digit]. now rewrite Hc.
Qed.

Lemma first_success_inv {A} k (attempt : nat -> option A) r :
  first_success k attempt = Some r ->
  exists j, 0 < j /\ j <= k /\ attempt j = Some r
            /\ forall i, j < i -> i <= k -> attempt i = None.
Proof.
  induction k as [|k IH]; [discriminate|]. cbn [first_success].
  destruct (attempt (S k)) as [x|] eqn:E.
  - intros [= <-]. exists (S k). repeat split; try lia. exact E.
  - intros H. destruct (IH H) as (j & Hj0 & Hjk & Hj & Hmax).
    exists j. repeat split; try lia; [exact Hj|].
    intros i Hi Hik. destruct (decide (i = S k)) as [->|Hne]; [exact E|].
    apply Hmax; lia.
Qed.

(** A group [(\d+)] holds a number, and what follows it is matched by the
    rest of the pattern. *)
Lemma match_here_digits_inv p s groups :
  match_here (GDigits :: p) s = Some groups ->
  exists a rest tail,
    s = a +:+ rest /\ is_number a = true /\ groups = a :: tail
    /\ match_here p rest = Some tail
    /\ (p = [] -> no_leading_digit rest = true).
Proof.
  cbn [match_here]. intros H.
  apply first_success_inv in H as (j & Hj0 & Hjk & Hj & Hmax).
  destruct (match_here p (drop j s)) as [tail|] eqn:Hm; [|discriminate].
  injection Hj as <-. exists (take j s), (drop j s), tail.
  split_and!; try reflexivity.
  - now rewrite take_drop.
  - unfold is_number. now rewrite take_nonempty, take_digits.
  - exact Hm.
  - intros ->. destruct (decide (j = digit_run s)) as [->|Hne].
    + apply drop_digit_run.
    + specialize (Hmax (digit_run s)). cbn [match_here fmap option_fmap option_map] in Hmax.
      discriminate Hmax; lia.
Qed.

Lemma match_here_lit_inv p c s groups :
  match_here (GLit c :: p) s = Some groups ->
  exists rest, s = String c rest /\ match_here p rest = Some groups.
Proof.
  cbn [match_here]. destruct s as [|a s]; [discriminate|].
  destruct (Ascii.eqb_spec a c) as [->|]; [|discriminate]. eauto.
Qed.

Lemma search_inv p s groups :
  search p s = Some groups ->
  exists pre rest, s = pre +:+ rest /\ match_here p rest = Some groups.
Proof.
  induction s as [|c s IH]; cbn [search].
  - destruct (match_here p "") eqn:E; [|discriminate].
    intros [= <-]. now exists "", "".
  - destruct (match_here p (String c s)) eqn:E.
    + intros [= <-]. now exists "", (String c s).
    + intros H. destruct (IH H) as (pre & rest & -> & Hm).
      now exists (String c pre), rest.
Qed.

(** X19: whatever version is read comes from the output: the output then
    holds three numbers [a.b.c], the last one not followed by a digit, and
    the version is their values. *)
Theorem version_of_output_sound (out : string) (x y z : N) :
  version_of_output out = Some (x, y, z) ->
  exists pre a b c post,
    out = pre +:+ a +:+ "." +:+ b +:+ "." +:+ c +:+ post
    /\ is_number a = true /\ is_number b = true /\ is_number c = true
    /\ no_leading_digit post = true
    /\ x = PyInt.int a /\ y = PyInt.int b /\ z = PyInt.int c.
Proof.
  unfold version_of_output, re_version.
  destruct (search _ out) as [groups|] eqn:Hs; [|discriminate].
  apply search_inv in Hs as (pre & r0 & -> & Hm).
  apply match_here_digits_inv in Hm as (a & r1 & t1 & -> & Ha & -> & Hm & _).
  apply match_here_lit_inv in Hm as (r2 & -> & Hm).
  apply match_here_digits_inv in Hm as (b & r3 & t2 & -> & Hb & -> & Hm & _).
  apply match_here_lit_inv in Hm as (r4 & -> & Hm).
  apply match_here_digits_inv in Hm as (c & post & t3 & -> & Hc & -> & Hm & Hpost).
  injection Hm as <-. intros [= <- <- <-].
  exists pre, a, b, c, post. split_and!; auto.
Qed.

End VersionSound.

Lemma version_of_output_sound_witness :
  exists pre a b c post,
    "git version 2.39.2" = pre +:+ a +:+ "." +:+ b +:+ "." +:+ c +:+ post
    /\ is_number a = true /\ is_number b = true /\ is_number c = true
    /\ no_leading_digit post = true
    /\ 2%N = PyInt.int a /\ 39%N = PyInt.int b /\ 2%N = PyInt.int c.
Proof. exact (version_of_output_sound "git version 2.39.2" 2 39 2 eq_refl). Defined.

(** ** An unsupported remote *)

Section Unsupported.
Import PyStr.
Variable os : OS.
Variable self : Git.

(** X20: with a remote given, when [remote get-url] exits with code zero
    and prints a URI in which [git@] occurs nowhere and which does not begin
    with [http://] or [https://], the resolution returns an absent result and
    raises nothing. *)
Theorem unsupported_scheme_absent remote w out err :
  truthy remote = true ->
  os w (get_url_query self remote) = Completed out err 0 ->
  Re.search re_git_at (rstrip out) Re.IGNORECASE = false ->
  Re.search re_http (rstrip out) Re.IGNORECASE = false ->
  get_remote_web_url os self (Some remote) w
  = (Return None, w ++ [get_url_query self remote]).
Proof.
  intros Hr Hos Hg Hh. rewrite get_remote_web_url_named by exact Hr.
  cbn [default from_option id]. rewrite Hos. cbn [Z.eqb].
  now rewrite (normalize_other _ Hg Hh).
Qed.

End Unsupported.

Lemma unsupported_scheme_absent_witness :
  get_remote_web_url
    (fun _ _ => Completed "ssh://example.org/team/proj.git" "" 0)
    sample_git (Some "origin") []
  = (Return None, [get_url_query sample_git "origin"]).
Proof.
  exact (unsupported_scheme_absent _ sample_git "origin" []
           "ssh://example.org/team/proj.git" "" eq_refl eq_refl eq_refl eq_refl).
Defined.
